(** * The tool layer of the stock chatbot: [groq_base.py] and [llama_base.py]

    A shallow embedding of the data-retrieval functions of the two scripts
    and of the library calls they rest on ([requests], [datetime],
    [json]), followed by the properties of the tool layer.

    Conventions.
    - A Python [str] is a Rocq [string]: a sequence of 8-bit characters,
      read as the code points 0..255.  On that range the regular
      expression class [\d] is exactly ['0'..'9'].
    - A Python value that the tools hand back is a [pyval].
    - A Python function with effects is a computation in the monad [Py]:
      it reads the process environment, appends to a trace of observable
      events (outbound requests, log records) and either returns or raises. *)

From Stdlib Require Import ZArith String Ascii List Lia Bool DecimalString.
From stdpp Require Import gmap strings.
Import ListNotations.

Open Scope string_scope.
Open Scope Z_scope.

#[local] Arguments String.append : simpl nomatch.

(** ** Python values *)

(** The values [json.loads] produces, which are also the values the tools
    return.  A [float] is kept as its IEEE-754 binary64 bit pattern; a
    [dict] keeps its insertion order. *)
#[local] Set Warnings "-register-all".
Inductive pyval : Type :=
| PNone
| PBool (b : bool)
| PInt (n : Z)
| PFloat (bits : Z)
| PStr (s : string)
| PList (l : list pyval)
| PDict (kvs : list (string * pyval)).



(** ** Exceptions *)

(** The exception classes that occur, with the part of Python's class
    hierarchy the [except] clauses of the scripts look at.
    [JSONDecodeError] is [requests.exceptions.JSONDecodeError], which
    derives from [RequestException] through [InvalidJSONError]
    (requests 2.27 and later). *)
Inductive exn_class : Type :=
| ValueError
| RequestException
| HTTPError
| ConnectionError
| Timeout
| JSONDecodeError
| OtherException.

Definition exn_class_eqb (a b : exn_class) : bool :=
  match a, b with
  | ValueError, ValueError
  | RequestException, RequestException
  | HTTPError, HTTPError
  | ConnectionError, ConnectionError
  | Timeout, Timeout
  | JSONDecodeError, JSONDecodeError
  | OtherException, OtherException => true
  | _, _ => false
  end.

(** [issubclass c base]. *)
Definition issubclass (c base : exn_class) : bool :=
  exn_class_eqb c base ||
  match base, c with
  | RequestException, (HTTPError | ConnectionError | Timeout | JSONDecodeError) => true
  | ValueError, JSONDecodeError => true
  | _, _ => false
  end.

Record exn : Type := mk_exn {
  exn_cls : exn_class;
  exn_str : string  (* str(e) *)
}.

(** ** The outside world *)

(** What [requests.get] hands back: the fields and methods of
    [requests.Response] that the scripts use.  [resp_json] is the outcome
    of [response.json()]: the decoded body, or the exception it raises.
    For a body that is not JSON that is a [JSONDecodeError]; what else the
    decoder raises, a [RecursionError] on a body nested too deep or the
    [ValueError] for an integer of too many digits, comes out as it is. *)
Record response : Type := mk_response {
  status_code : Z;
  reason : string;
  resp_url : string;
  resp_json : pyval + exn
}.

Definition headers : Type := list (string * option string).

Inductive http_outcome : Type :=
| Responded (r : response)
| Failed (e : exn).   (* requests.get itself raised *)

Record date : Type := mk_date { year : Z; month : Z; day : Z }.

(** The process environment a script runs in. *)
Record env : Type := mk_env {
  getenv : string -> option string;       (* os.getenv, after load_dotenv() *)
  network : string -> headers -> http_outcome;   (* the remote end of requests.get *)
  clock : date;                           (* the local date now *)
  fills_year : bool                       (* strftime writes %Y in four digits,
                                             zero filled: CPython 3.13 and later
                                             does, and so do the C libraries
                                             other than glibc; CPython up to 3.12
                                             on glibc writes a year below 1000
                                             as it is *)
}.

Inductive log_level : Type := WARNING | ERROR.

Inductive event : Type :=
| EvGet (url : string) (h : headers)
| EvLog (lvl : log_level) (msg : string).

(** ** The monad of Python computations *)

Inductive outcome (A : Type) : Type :=
| Return (a : A)
| Raise (e : exn).
Arguments Return {A} a.
Arguments Raise {A} e.

Definition Py (A : Type) : Type := env -> list event * outcome A.

Definition ret {A} (a : A) : Py A := fun _ => ([], Return a).

Definition bind {A B} (m : Py A) (k : A -> Py B) : Py B :=
  fun w =>
    match m w with
    | (tr, Return a) => let (tr', r) := k a w in ((tr ++ tr')%list, r)
    | (tr, Raise e) => (tr, Raise e)
    end.

Definition raise {A} (e : exn) : Py A := fun _ => ([], Raise e).

Definition emit (ev : event) : Py unit := fun _ => ([ev], Return tt).

Definition ask : Py env := fun w => ([], Return w).

(** [try: body / except cls as e: handler e]. *)
Definition try_except {A} (body : Py A) (cls : exn_class) (handler : exn -> Py A) : Py A :=
  fun w =>
    match body w with
    | (tr, Return a) => (tr, Return a)
    | (tr, Raise e) =>
        if issubclass (exn_cls e) cls
        then let (tr', r) := handler e w in ((tr ++ tr')%list, r)
        else (tr, Raise e)
    end.

Declare Scope py_scope.
Delimit Scope py_scope with py.
Notation "x <- c1 ;; c2" := (bind c1 (fun x => c2))
  (at level 100, c1 at next level, right associativity) : py_scope.
Notation "c1 ;; c2" := (bind c1 (fun _ => c2))
  (at level 100, right associativity) : py_scope.
Open Scope py_scope.

Definition trace {A} (r : list event * outcome A) : list event := fst r.
Definition result {A} (r : list event * outcome A) : outcome A := snd r.

(** The URLs requested in a trace, in order. *)
Fixpoint requested (tr : list event) : list string :=
  match tr with
  | [] => []
  | EvGet url _ :: tr' => url :: requested tr'
  | EvLog _ _ :: tr' => requested tr'
  end.

(** ** Decimal digits and zero-padded numbers *)

Definition is_digit (c : ascii) : bool :=
  let n := Z.of_nat (nat_of_ascii c) in (48 <=? n) && (n <=? 57).

Definition digit_val (c : ascii) : Z := Z.of_nat (nat_of_ascii c) - 48.

Definition digit_chr (k : Z) : ascii := ascii_of_nat (Z.to_nat (48 + k)).

(** [in_range lo hi c]: the character class [[lo-hi]]. *)
Definition in_range (lo hi c : ascii) : bool :=
  let n := nat_of_ascii c in
  (Nat.leb (nat_of_ascii lo) n) && (Nat.leb n (nat_of_ascii hi)).

(** Two and four decimal digits, zero filled: C's [%02d] and [%04d]. *)
Definition pad2 (n : Z) : string :=
  String (digit_chr (n / 10 mod 10)) (String (digit_chr (n mod 10)) "").

Definition pad4 (n : Z) : string :=
  String (digit_chr (n / 1000 mod 10))
    (String (digit_chr (n / 100 mod 10))
       (String (digit_chr (n / 10 mod 10))
          (String (digit_chr (n mod 10)) ""))).

(** [int(s)] on the strings the date patterns capture: leading blanks are
    dropped, then every character has to be a decimal digit.  [None]
    stands for the [ValueError] of [int]. *)
Fixpoint lstrip (s : string) : string :=
  match s with
  | String " " s' => lstrip s'
  | _ => s
  end.

Fixpoint digits_to_Z (acc : Z) (s : string) : option Z :=
  match s with
  | "" => Some acc
  | String c s' =>
      if is_digit c then digits_to_Z (10 * acc + digit_val c) s' else None
  end.

Definition py_int (s : string) : option Z :=
  match lstrip s with
  | "" => None
  | s' => digits_to_Z 0 s'
  end.

(** ** [datetime]: calendar dates *)

Definition is_leap (y : Z) : bool :=
  (y mod 4 =? 0) && (negb (y mod 100 =? 0) || (y mod 400 =? 0)).

Definition days_in_month (y m : Z) : Z :=
  if m =? 2 then (if is_leap y then 29 else 28)
  else if (m =? 4) || (m =? 6) || (m =? 9) || (m =? 11) then 30
  else 31.

(** The check of the [datetime.date] constructor: MINYEAR = 1,
    MAXYEAR = 9999. *)
Definition valid_date (d : date) : bool :=
  (1 <=? year d) && (year d <=? 9999) &&
  (1 <=? month d) && (month d <=? 12) &&
  (1 <=? day d) && (day d <=? days_in_month (year d) (month d)).

(** ** [re]: the fragment of regular expressions [_strptime] builds *)

Inductive regex : Type :=
| Chr (c : ascii)            (* a literal character *)
| Rng (lo hi : ascii)        (* [lo-hi] *)
| Digit                      (* \d *)
| Cat (r1 r2 : regex)        (* r1 r2 *)
| Alt (r1 r2 : regex).       (* r1|r2 *)

Definition one_char (p : ascii -> bool) (s : string) : list (string * string) :=
  match s with
  | String c s' => if p c then [(String c "", s')] else []
  | "" => []
  end.

(** All the ways [r] matches a prefix of [s], as (matched text, rest), in
    the order a backtracking matcher tries them: the left alternative
    first. *)
Fixpoint rmatch (r : regex) (s : string) : list (string * string) :=
  match r with
  | Chr c => one_char (Ascii.eqb c) s
  | Rng lo hi => one_char (in_range lo hi) s
  | Digit => one_char is_digit s
  | Cat r1 r2 =>
      flat_map (fun m1 =>
                  map (fun m2 => (fst m1 ++ fst m2, snd m2)) (rmatch r2 (snd m1)))
               (rmatch r1 s)
  | Alt r1 r2 => (rmatch r1 s ++ rmatch r2 s)%list
  end.

(** The entries of [_strptime.TimeRE] for the directives the scripts use. *)

(** [%d]: 3[0-1]|[1-2]\d|0[1-9]|[1-9]| [1-9] *)
Definition re_d : regex :=
  Alt (Cat (Chr "3") (Rng "0" "1"))
 (Alt (Cat (Rng "1" "2") Digit)
 (Alt (Cat (Chr "0") (Rng "1" "9"))
 (Alt (Rng "1" "9")
      (Cat (Chr " ") (Rng "1" "9"))))).

(** [%m]: 1[0-2]|0[1-9]|[1-9] *)
Definition re_m : regex :=
  Alt (Cat (Chr "1") (Rng "0" "2"))
 (Alt (Cat (Chr "0") (Rng "1" "9"))
      (Rng "1" "9")).

(** [%Y]: \d\d\d\d *)
Definition re_Y : regex := Cat Digit (Cat Digit (Cat Digit Digit)).

Definition directive (k : ascii) : option regex :=
  match k with
  | "d"%char => Some re_d
  | "m"%char => Some re_m
  | "Y"%char => Some re_Y
  | _ => None
  end.

(** A compiled format: named groups and literal characters. *)
Inductive piece : Type :=
| Group (name : ascii) (r : regex)
| Lit (c : ascii).

(** [TimeRE.pattern]: every [%k] becomes the named group of directive [k],
    every other character stands for itself.  [None] is the [ValueError]
    for a directive that is not known or a [%] at the end.  (A blank in
    the format would become [\s+]; the formats of the scripts have none.) *)
Fixpoint pattern (fmt : string) : option (list piece) :=
  match fmt with
  | "" => Some []
  | String "%" "" => None
  | String "%" (String k rest) =>
      match directive k, pattern rest with
      | Some r, Some ps => Some (Group k r :: ps)
      | _, _ => None
      end
  | String c rest =>
      match pattern rest with
      | Some ps => Some (Lit c :: ps)
      | None => None
      end
  end.

Definition groupdict : Type := list (ascii * string).

(** All matches of the pattern at the start of [s] with their groups and
    the unread rest, best first; [format_regex.match(data_string)] is the
    head of this list. *)
Fixpoint pmatch (ps : list piece) (s : string) : list (groupdict * string) :=
  match ps with
  | [] => [([], s)]
  | Lit c :: ps' =>
      match s with
      | String x s' => if Ascii.eqb x c then pmatch ps' s' else []
      | "" => []
      end
  | Group k r :: ps' =>
      flat_map (fun m =>
                  map (fun rest => ((k, fst m) :: fst rest, snd rest)) (pmatch ps' (snd m)))
               (rmatch r s)
  end.

Fixpoint group (k : ascii) (g : groupdict) : option string :=
  match g with
  | [] => None
  | (k', v) :: g' => if Ascii.eqb k' k then Some v else group k g'
  end.

(** The integer value of group [k], [dflt] when the format has no such
    group; [None] when [int] rejects the text. *)
Definition group_int (k : ascii) (dflt : Z) (g : groupdict) : option Z :=
  match group k g with
  | None => Some dflt
  | Some v => py_int v
  end.

Definition value_error {A} (msg : string) : outcome A := Raise (mk_exn ValueError msg).

(** [datetime.strptime(data_string, format)], date part.  The texts of the
    [ValueError]s are abridged: nothing in the scripts reads them. *)
Definition strptime_date (data_string fmt : string) : outcome date :=
  match pattern fmt with
  | None => value_error "bad directive in format"
  | Some ps =>
      match hd_error (pmatch ps data_string) with
      | None => value_error "time data does not match format"
      | Some (found, rest) =>
          match rest with
          | String _ _ => value_error "unconverted data remains"
          | "" =>
              match group_int "Y" 1900 found, group_int "m" 1 found, group_int "d" 1 found with
              | Some y, Some m, Some d =>
                  let dt := mk_date y m d in
                  if valid_date dt then Return dt
                  else value_error "date value out of range"
              | _, _, _ => value_error "invalid literal for int()"
              end
          end
      end
  end.

Definition strptime (data_string fmt : string) : Py date :=
  fun _ => ([], strptime_date data_string fmt).

(** [str(n)] for an [int], which is also C's [%d]. *)
Definition str_int (n : Z) : string := NilZero.string_of_int (Z.to_int n).

(** The year as [%Y] writes it. *)
Definition year_text (filled : bool) (y : Z) : string :=
  if filled then pad4 y else str_int y.

(** The text of [d.strftime(format)] for the directives [%Y], [%m] and
    [%d]: the year as the platform writes it, month and day in two digits.
    Other directives are not modelled and are copied as they stand. *)
Fixpoint strftime_text (filled : bool) (d : date) (fmt : string) : string :=
  match fmt with
  | "" => ""
  | String "%" (String k rest) =>
      (match k with
       | "Y"%char => year_text filled (year d)
       | "m"%char => pad2 (month d)
       | "d"%char => pad2 (day d)
       | _ => String "%" (String k "")
       end) ++ strftime_text filled d rest
  | String c rest => String c (strftime_text filled d rest)
  end.

(** [d.strftime(format)]. *)
Definition strftime (d : date) (fmt : string) : Py string :=
  fun w => ([], Return (strftime_text (fills_year w) d fmt)).

(** [datetime.today()], date part. *)
Definition today : Py date := fun w => ([], Return (clock w)).

(** ** [logging] *)

Definition logger_warning (msg : string) : Py unit := emit (EvLog WARNING msg).
Definition logger_error (msg : string) : Py unit := emit (EvLog ERROR msg).

(** ** String formatting *)

(** [str(x)] for a value that is a [str] or [None]. *)
Definition str_opt (x : option string) : string :=
  match x with
  | Some s => s
  | None => "None"
  end.

(** ** [requests] *)

(** [requests.get(url, headers=headers)]: one outbound call; the remote
    end decides between a response and an exception. *)
Definition requests_get (url : string) (h : headers) : Py response :=
  fun w =>
    ([EvGet url h],
     match network w url h with
     | Responded r => Return r
     | Failed e => Raise e
     end).

(** [Response.raise_for_status]: an [HTTPError] for the client errors
    400..499 and the server errors 500..599, nothing otherwise. *)
Definition http_error_msg (r : response) : string :=
  if (400 <=? status_code r) && (status_code r <? 500) then
    str_int (status_code r) ++ " Client Error: " ++ reason r ++ " for url: " ++ resp_url r
  else if (500 <=? status_code r) && (status_code r <? 600) then
    str_int (status_code r) ++ " Server Error: " ++ reason r ++ " for url: " ++ resp_url r
  else "".

Definition raise_for_status (r : response) : Py unit :=
  match http_error_msg r with
  | "" => ret tt
  | msg => raise (mk_exn HTTPError msg)
  end.

(** [response.json()]. *)
Definition response_json (r : response) : Py pyval :=
  match resp_json r with
  | inl v => ret v
  | inr e => raise e
  end.

(** ** Tools and module namespaces *)

(** The Python functions behind the tools, by signature.  An argument
    with a default value is an [option]: [None] when the call leaves it
    out. *)
Inductive pyfunc : Type :=
| FunStock (f : string -> Py pyval)                          (* (stock) *)
| FunDatesTopN (f : string -> string -> option Z -> Py pyval)   (* (start_date, end_date, top_n=5) *)
| FunStockDates (f : string -> string -> string -> Py pyval).   (* (stock, start_date, end_date) *)

(** What the [@tool] decorator makes of a function: its name, its
    docstring as description, and the function. *)
Record tool : Type := mk_tool {
  tool_name : string;
  tool_description : string;
  tool_func : pyfunc
}.

(** The objects a module namespace binds, as far as the tools go. *)
Inductive object : Type :=
| OTool (t : tool)
| OList (l : list tool).

(** The top-level statements that bind tools. *)
Inductive stmt : Type :=
| SDef (t : tool)                              (* @tool def <name>(...): ... *)
| SAssignList (target : string) (names : list string).   (* target = [name, ...] *)

Definition eval_name (g : gmap string object) (name : string) : option tool :=
  match g !! name with
  | Some (OTool t) => Some t
  | _ => None
  end.

Fixpoint eval_names (g : gmap string object) (names : list string) : option (list tool) :=
  match names with
  | [] => Some []
  | n :: names' =>
      match eval_name g n, eval_names g names' with
      | Some t, Some ts => Some (t :: ts)
      | _, _ => None
      end
  end.

(** One statement: a [def] rebinds its name, whatever it was bound to; a
    list display reads its names in the namespace as it is then. [None]
    is a [NameError]. *)
Definition exec (g : gmap string object) (st : stmt) : option (gmap string object) :=
  match st with
  | SDef t => Some (<[tool_name t := OTool t]> g)
  | SAssignList target names =>
      match eval_names g names with
      | Some ts => Some (<[target := OList ts]> g)
      | None => None
      end
  end.

Fixpoint exec_module (g : gmap string object) (body : list stmt) : option (gmap string object) :=
  match body with
  | [] => Some g
  | st :: body' =>
      match exec g st with
      | Some g' => exec_module g' body'
      | None => None
      end
  end.

(** Calling a tool that takes a stock symbol alone. *)
Definition call_stock (t : tool) (stock : string) : option (Py pyval) :=
  match tool_func t with
  | FunStock f => Some (f stock)
  | _ => None
  end.

(** * [groq_base.py] *)

Module Groq.
Section WithJson.

(** [json.dumps], the encoder of the standard library. *)
Variable json_dumps : pyval -> string.

Definition SECTORS_API_KEY (w : env) : option string := getenv w "SECTORS_API_KEY".
Definition URL_API (w : env) : option string := getenv w "URL_API".

Definition retrieve_from_endpoint (url : string) : Py pyval :=
  w <- ask;;
  let headers := [("Authorization", SECTORS_API_KEY w)] in
  response <- requests_get url headers;;
  raise_for_status response;;
  body <- response_json response;;
  ret (PStr (json_dumps body)).

(** The first [def get_company_overview] (line 23). *)
Definition get_company_overview_1st (stock : string) : Py pyval :=
  w <- ask;;
  let url := str_opt (URL_API w) ++ "/get_qcc_tema_by_team" in
  retrieve_from_endpoint url.

(** The second [def get_company_overview] (line 29). *)
Definition get_company_overview_2nd (stock : string) : Py pyval :=
  let url := "https://api.sectors.app/v1/company/report/" ++ stock ++ "/?sections=overview" in
  retrieve_from_endpoint url.

Definition get_top_companies_by_tx_volume
    (start_date end_date : string) (top_n : option Z) : Py pyval :=
  let top_n := default 5 top_n in
  let url := "https://api.sectors.app/v1/most-traded/?start=" ++ start_date
             ++ "&end=" ++ end_date ++ "&n_stock=" ++ str_int top_n in
  retrieve_from_endpoint url.

Definition get_daily_tx (stock start_date end_date : string) : Py pyval :=
  let url := "https://api.sectors.app/v1/daily/" ++ stock ++ "/?start=" ++ start_date
             ++ "&end=" ++ end_date in
  retrieve_from_endpoint url.

(** The four decorated definitions, in source order. *)
Definition tool_overview_1st : tool :=
  mk_tool "get_company_overview"
          "Retrieve QCC themes, associated teams, and their respective periods"
          (FunStock get_company_overview_1st).

Definition tool_overview_2nd : tool :=
  mk_tool "get_company_overview" "Get company overview"
          (FunStock get_company_overview_2nd).

Definition tool_top_companies : tool :=
  mk_tool "get_top_companies_by_tx_volume" "Get top companies by transaction volume"
          (FunDatesTopN get_top_companies_by_tx_volume).

Definition tool_daily_tx : tool :=
  mk_tool "get_daily_tx" "Get daily transaction for a stock"
          (FunStockDates get_daily_tx).

(** The module body down to line 46, as far as it binds tools. *)
Definition module_body : list stmt :=
  [ SDef tool_overview_1st;
    SDef tool_overview_2nd;
    SDef tool_top_companies;
    SDef tool_daily_tx;
    SAssignList "tools"
      ["get_company_overview"; "get_top_companies_by_tx_volume"; "get_daily_tx"] ].

Definition globals : option (gmap string object) := exec_module ∅ module_body.

End WithJson.
End Groq.

(** * [llama_base.py] *)

Module Llama.

Definition SECTORS_API_KEY (w : env) : option string := getenv w "SECTORS_API_KEY".

Definition retrieve_from_endpoint (url : string) : Py pyval :=
  w <- ask;;
  let headers := [("Authorization", SECTORS_API_KEY w)] in
  try_except
    (response <- requests_get url headers;;
     raise_for_status response;;
     response_json response)
    RequestException
    (fun e =>
       logger_error ("Error retrieving data from " ++ url ++ ": " ++ exn_str e);;
       ret (PDict [("error", PStr (exn_str e))])).

Definition format_date (date : string) : Py string :=
  try_except
    (parsed_date <- strptime date "%Y-%m-%d";;
     strftime parsed_date "%Y-%m-%d")
    ValueError
    (fun _ =>
       try_except
         (parsed_date <- strptime date "%d/%m/%Y";;
          strftime parsed_date "%Y-%m-%d")
         ValueError
         (fun _ =>
            logger_warning ("Invalid date format: " ++ date ++ ". Using today's date.");;
            now <- today;;
            strftime now "%Y-%m-%d")).

Definition get_company_overview (stock : string) : Py pyval :=
  let url := "https://api.sectors.app/v1/company/report/" ++ stock ++ "/?sections=overview" in
  retrieve_from_endpoint url.

Definition get_top_companies_by_tx_volume
    (start_date end_date : string) (top_n : option Z) : Py pyval :=
  let top_n := default 5 top_n in
  start_date <- format_date start_date;;
  end_date <- format_date end_date;;
  let url := "https://api.sectors.app/v1/most-traded/?start=" ++ start_date
             ++ "&end=" ++ end_date ++ "&n_stock=" ++ str_int top_n in
  retrieve_from_endpoint url.

Definition get_daily_tx (stock start_date end_date : string) : Py pyval :=
  start_date <- format_date start_date;;
  end_date <- format_date end_date;;
  let url := "https://api.sectors.app/v1/daily/" ++ stock ++ "/?start=" ++ start_date
             ++ "&end=" ++ end_date in
  retrieve_from_endpoint url.

End Llama.


(** * Vocabulary of the properties *)

Definition base_url : string := "https://api.sectors.app".

(** A date written [YYYY-MM-DD] and [DD/MM/YYYY]. *)
Definition iso_format (d : date) : string :=
  pad4 (year d) ++ "-" ++ pad2 (month d) ++ "-" ++ pad2 (day d).

Definition dmy_format (d : date) : string :=
  pad2 (day d) ++ "/" ++ pad2 (month d) ++ "/" ++ pad4 (year d).

(** What [strftime("%Y-%m-%d")] writes of [d] in the environment [w]. *)
Definition date_text (w : env) (d : date) : string :=
  strftime_text (fills_year w) d "%Y-%m-%d".

(** [strftime] writes the year of [d] in four digits in [w]. *)
Definition four_digit_year (w : env) (d : date) : Prop :=
  fills_year w = true \/ 1000 <= year d.

Definition num2 (a b : ascii) : Z := 10 * digit_val a + digit_val b.

Definition num4 (a b c d : ascii) : Z :=
  1000 * digit_val a + 100 * digit_val b + 10 * digit_val c + digit_val d.

(** [s] is ten characters [dddd-dd-dd] that name a calendar date. *)
Definition is_iso_date (s : string) : bool :=
  match s with
  | String y3 (String y2 (String y1 (String y0 (String h1
      (String m1 (String m0 (String h2 (String d1 (String d0 ""))))))))) =>
      is_digit y3 && is_digit y2 && is_digit y1 && is_digit y0 &&
      Ascii.eqb h1 "-" &&
      is_digit m1 && is_digit m0 &&
      Ascii.eqb h2 "-" &&
      is_digit d1 && is_digit d0 &&
      valid_date (mk_date (num4 y3 y2 y1 y0) (num2 m1 m0) (num2 d1 d0))
  | _ => false
  end.

Definition raises {A} (o : outcome A) : Prop := exists e, o = Raise e.

(** The two formats of [format_date], compiled. *)
Definition ps_ymd : list piece :=
  [Group "Y" re_Y; Lit "-"; Group "m" re_m; Lit "-"; Group "d" re_d].

Definition ps_dmy : list piece :=
  [Group "d" re_d; Lit "/"; Group "m" re_m; Lit "/"; Group "Y" re_Y].

(** The header every request carries. *)
Definition auth_headers (w : env) : headers :=
  [("Authorization", getenv w "SECTORS_API_KEY")].

(** The last character of [s], [dflt] when [s] is empty. *)
Fixpoint last_char (s : string) (dflt : ascii) : ascii :=
  match s with
  | "" => dflt
  | String c s' => last_char s' c
  end.

(** The URL the first [get_company_overview] of [groq_base.py] would ask for. *)
Definition qcc_url (w : env) : string :=
  str_opt (Groq.URL_API w) ++ "/get_qcc_tema_by_team".

(** The record the llama script logs when a request fails. *)
Definition error_record (url : string) (e : exn) : event :=
  EvLog ERROR ("Error retrieving data from " ++ url ++ ": " ++ exn_str e).

(** The request to [url] fails: [requests.get] raises a
    [RequestException], or the response has a status that
    [raise_for_status] turns into an [HTTPError]. *)
Definition request_fails (w : env) (url : string) (e : exn) : Prop :=
  (network w url (auth_headers w) = Failed e /\
   issubclass (exn_cls e) RequestException = true) \/
  (exists r, network w url (auth_headers w) = Responded r /\
             400 <= status_code r < 600 /\
             e = mk_exn HTTPError (http_error_msg r)).

(** Sample environments: the service answers 200 with an empty object,
    answers 404, answers 300 with a list of choices, or cannot be reached;
    and the first of them where [strftime] does not fill the year. *)
Definition example_env : env :=
  mk_env (fun _ => None)
         (fun u _ => Responded (mk_response 200 "OK" u (inl (PDict []))))
         (mk_date 2026 11 3) true.

Definition env_404 : env :=
  mk_env (fun _ => None)
         (fun u _ => Responded (mk_response 404 "Not Found" u (inl (PDict []))))
         (mk_date 2026 11 3) true.

Definition env_300 : env :=
  mk_env (fun _ => None)
         (fun u _ => Responded (mk_response 300 "Multiple Choices" u (inl (PList []))))
         (mk_date 2026 11 3) true.

Definition env_down : env :=
  mk_env (fun _ => None)
         (fun u _ => Failed (mk_exn ConnectionError "Max retries exceeded"))
         (mk_date 2026 11 3) true.

Definition env_glibc : env :=
  mk_env (fun _ => None)
         (fun u _ => Responded (mk_response 200 "OK" u (inl (PDict []))))
         (mk_date 2026 11 3) false.

(** A stand-in for [json.dumps] in the examples, right on the two bodies
    the sample services send. *)
Definition sample_dumps (v : pyval) : string :=
  match v with
  | PDict [] => "{}"
  | PList [] => "[]"
  | _ => "null"
  end.

(** * The main loops of the two scripts *)

(** What a session shows at the console and around it.  The answering
    agent is the one thing the loops call; everything it does in the world
    is an [Effect]. *)
Inductive console : Type :=
| Printed (text : string)            (* print(text) *)
| PrintedElapsed                     (* print of the line with the execution time,
                                        a difference of two wall-clock readings *)
| Asked (prompt line : string)       (* input(prompt) read a line *)
| AskedAtEof (prompt : string)       (* input(prompt) found the input at its end *)
| Invoked (query : string)           (* the agent is handed a query *)
| Effect (e : event).

Definition nl : string := String "010" "".

(** [str.lower] on the code points 0..255: the letters A-Z and the capital
    letters of Latin-1 (all of 192..222 but the multiplication sign 215)
    move up by 32. *)
Definition lower_char (c : ascii) : ascii :=
  let n := nat_of_ascii c in
  if (Nat.leb 65 n && Nat.leb n 90) || (Nat.leb 192 n && Nat.leb n 214)
     || (Nat.leb 216 n && Nat.leb n 222)
  then ascii_of_nat (n + 32)
  else c.

Fixpoint lower (s : string) : string :=
  match s with
  | "" => ""
  | String c s' => String (lower_char c) (lower s')
  end.

(** [str.isspace] on the code points 0..255, and [str.strip()]. *)
Definition is_space (c : ascii) : bool :=
  let n := nat_of_ascii c in
  (Nat.leb 9 n && Nat.leb n 13) || (Nat.leb 28 n && Nat.leb n 32)
  || Nat.eqb n 133 || Nat.eqb n 160.

Fixpoint lstrip_space (s : string) : string :=
  match s with
  | "" => ""
  | String c s' => if is_space c then lstrip_space s' else s
  end.

Fixpoint rstrip_space (s : string) : string :=
  match s with
  | "" => ""
  | String c s' =>
      match rstrip_space s' with
      | "" => if is_space c then "" else String c ""
      | r => String c r
      end
  end.

Definition strip (s : string) : string := rstrip_space (lstrip_space s).

(** [x in l] for a list of strings. *)
Definition py_in (x : string) (l : list string) : bool := existsb (String.eqb x) l.

(** [groq_base.py], lines 75 to 96. *)
Module GroqMain.
Section WithAgent.

(** [agent_executor.invoke({"input": q})["output"]]: the answer of the
    agent executor, which is a dict that has the key [output]. *)
Variable invoke : string -> Py string.

Definition prompt : string := nl ++ "Enter questions: ".

(** The [EOFError] of [input]. *)
Definition EOFError : exn := mk_exn OtherException "EOF when reading a line".

Definition is_sentinel (user_query : string) : bool :=
  py_in (lower user_query) ["exit"; "quit"].

(** The [while True] loop, on what is still to be read of the input. *)
Fixpoint loop (stdin : list string) (w : env) : list console * outcome unit :=
  match stdin with
  | [] => ([AskedAtEof prompt], Raise EOFError)
  | user_query :: stdin' =>
      if is_sentinel user_query then
        ([Asked prompt user_query; Printed "Goodbye!"], Return tt)
      else
        match invoke user_query w with
        | (tr, Raise e) =>
            (Asked prompt user_query :: Invoked user_query :: map Effect tr, Raise e)
        | (tr, Return output) =>
            let (rest, r) := loop stdin' w in
            ((Asked prompt user_query :: Invoked user_query :: map Effect tr)
               ++ [Printed (nl ++ "AI Response:"); Printed output; PrintedElapsed]
               ++ rest,
             r)
        end
  end%list.

Definition main (stdin : list string) (w : env) : list console * outcome unit :=
  let (tr, r) := loop stdin w in
  (Printed "Stock AI Chatbot - Type 'exit' to quit" :: tr, r).

End WithAgent.
End GroqMain.

(** [llama_base.py], lines 98 to 117. *)
Module LlamaMain.
Section WithAgent.

(** [agent.run(query)]. *)
Variable run : string -> Py string.

(** [isinstance(e, Exception)] for an exception of a class that is none
    of those named in [exn_class]; those are all [Exception]s. *)
Variable other_is_Exception : exn -> bool.

Definition is_Exception (e : exn) : bool :=
  match exn_cls e with
  | OtherException => other_is_Exception e
  | _ => true
  end.

Definition queries : list string :=
  [ "What are the top 3 companies by transaction volume over the last 7 days?";
    "Based on the closing prices of BBCA between 1st and 30th of June 2024, are we seeing an uptrend or downtrend? Try to explain why.";
    "What is the company with the largest market cap between BBCA and BREN? For said company, retrieve the email, phone number, listing date and website for further research.";
    "What is the performance of GOTO (symbol: GOTO) since its IPO listing?";
    "If I had invested into GOTO vs BREN on their respective IPO listing date, which one would have given me a better return over a 90-day horizon?" ].

(** The body of the [for] loop for one query. *)
Definition step (query : string) (w : env) : list console * outcome unit :=
  match strip query with
  | "" => ([Effect (EvLog WARNING "Skipping empty query.")], Return tt)
  | _ =>
      match run query w with
      | (tr, Return result) =>
          (Invoked query :: map Effect tr
             ++ [Printed ("Answer: " ++ nl ++ " " ++ result ++ " " ++ nl ++ nl ++ "======"
                          ++ nl ++ nl)],
           Return tt)
      | (tr, Raise e) =>
          if is_Exception e then
            (Invoked query :: map Effect tr
               ++ [Effect (EvLog ERROR ("Error processing query '" ++ query ++ "': "
                                        ++ exn_str e))],
             Return tt)
          else (Invoked query :: map Effect tr, Raise e)
      end
  end%list.

Fixpoint loop (qs : list string) (w : env) : list console * outcome unit :=
  match qs with
  | [] => ([], Return tt)
  | query :: qs' =>
      match step query w with
      | (tr, Return _) => let (rest, r) := loop qs' w in ((tr ++ rest)%list, r)
      | (tr, Raise e) => (tr, Raise e)
      end
  end.

Definition main (w : env) : list console * outcome unit := loop queries w.

End WithAgent.
End LlamaMain.

(** The queries handed to the agent, the lines read and the texts
    printed in a session. *)
Fixpoint invoked (tr : list console) : list string :=
  match tr with
  | [] => []
  | Invoked q :: tr' => q :: invoked tr'
  | _ :: tr' => invoked tr'
  end.

Fixpoint lines_read (tr : list console) : list string :=
  match tr with
  | [] => []
  | Asked _ line :: tr' => line :: lines_read tr'
  | _ :: tr' => lines_read tr'
  end.

Fixpoint printed (tr : list console) : list string :=
  match tr with
  | [] => []
  | Printed text :: tr' => text :: printed tr'
  | _ :: tr' => printed tr'
  end.

(** Nothing but blanks, if anything at all. *)
Fixpoint all_space (s : string) : bool :=
  match s with
  | "" => true
  | String c s' => is_space c && all_space s'
  end.

(** The lines before the one that ends a session of [groq_base.py]: none
    is a sentinel, and the agent answers each. *)
Definition answered (invoke : string -> Py string) (w : env) (before : list string) : Prop :=
  forall l, In l before ->
            GroqMain.is_sentinel l = false /\ exists tr out, invoke l w = (tr, Return out).

(** The queries of a batch of [llama_base.py] on which the agent, when it
    fails, fails with an [Exception]. *)
Definition survivable (run : string -> Py string) (other : exn -> bool) (w : env)
    (qs : list string) : Prop :=
  forall q tr e, In q qs -> run q w = (tr, Raise e) -> LlamaMain.is_Exception other e = true.

(** A string in every letter case: each character as it is or as [up]
    makes it. *)
Fixpoint spellings (up : ascii -> ascii) (s : string) : list string :=
  match s with
  | "" => [""]
  | String c s' =>
      (map (String c) (spellings up s') ++ map (String (up c)) (spellings up s'))%list
  end.

Definition upper_ascii (c : ascii) : ascii := ascii_of_nat (nat_of_ascii c - 32).

(** An agent for the examples: it answers ["ok"], and fails on the query
    ["boom"]. *)
Definition sample_agent (q : string) : Py string :=
  if String.eqb q "boom" then raise (mk_exn ValueError "boom") else ret "ok".

(** * Vocabulary of the further properties *)

(** What [format_date] does with an input that neither format parses: one
    warning, and today's date as [strftime] writes it. *)
Definition fallback (s : string) (w : env) : list event * outcome string :=
  ([EvLog WARNING ("Invalid date format: " ++ s ++ ". Using today's date.")],
   Return (date_text w (clock w))).

(** Ten characters [dddd-dd-dd], whatever numbers they are, and the three
    numbers. *)
Definition is_iso_shape (s : string) : bool :=
  match s with
  | String y3 (String y2 (String y1 (String y0 (String h1
      (String m1 (String m0 (String h2 (String d1 (String d0 ""))))))))) =>
      is_digit y3 && is_digit y2 && is_digit y1 && is_digit y0 &&
      Ascii.eqb h1 "-" &&
      is_digit m1 && is_digit m0 &&
      Ascii.eqb h2 "-" &&
      is_digit d1 && is_digit d0
  | _ => false
  end.

Definition date_of_iso (s : string) : date :=
  match s with
  | String y3 (String y2 (String y1 (String y0 (String _
      (String m1 (String m0 (String _ (String d1 (String d0 _))))))))) =>
      mk_date (num4 y3 y2 y1 y0) (num2 m1 m0) (num2 d1 d0)
  | _ => mk_date 0 0 0
  end.

(** Ten characters [dd/dd/dddd], and the three numbers. *)
Definition is_dmy_shape (s : string) : bool :=
  match s with
  | String d1 (String d0 (String h1 (String m1 (String m0 (String h2
      (String y3 (String y2 (String y1 (String y0 ""))))))))) =>
      is_digit d1 && is_digit d0 &&
      Ascii.eqb h1 "/" &&
      is_digit m1 && is_digit m0 &&
      Ascii.eqb h2 "/" &&
      is_digit y3 && is_digit y2 && is_digit y1 && is_digit y0
  | _ => false
  end.

Definition date_of_dmy (s : string) : date :=
  match s with
  | String d1 (String d0 (String _ (String m1 (String m0 (String _
      (String y3 (String y2 (String y1 (String y0 _))))))))) =>
      mk_date (num4 y3 y2 y1 y0) (num2 m1 m0) (num2 d1 d0)
  | _ => mk_date 0 0 0
  end.

(** A number below 100 without a leading zero: what [str] makes of it. *)
Definition unpad (n : Z) : string :=
  if n <? 10 then String (digit_chr n) "" else pad2 n.

(** The spellings of a month and of a day of the month: two digits, or no
    leading zero; for a day below ten also a blank in place of the zero. *)
Definition month_text (m : Z) (s : string) : Prop :=
  s = pad2 m \/ s = unpad m.

Definition day_text (d : Z) (s : string) : Prop :=
  s = pad2 d \/ s = unpad d \/ (d < 10 /\ s = String " " (unpad d)).

(** The groups of the first match when it reads the whole of [s]. *)
Definition first_full (l : list (groupdict * string)) : option groupdict :=
  match hd_error l with
  | Some (g, "") => Some g
  | _ => None
  end.

Definition full_match (ps : list piece) (s : string) : option groupdict :=
  first_full (pmatch ps s).

(** The warning [format_date] logs for [s]. *)
Definition date_warning (s : string) : event :=
  EvLog WARNING ("Invalid date format: " ++ s ++ ". Using today's date.").

(** The URLs of the two tools that take dates. *)
Definition daily_url (stock start_date end_date : string) : string :=
  base_url ++ "/v1/daily/" ++ stock ++ "/?start=" ++ start_date ++ "&end=" ++ end_date.

Definition most_traded_url (start_date end_date : string) (n : Z) : string :=
  base_url ++ "/v1/most-traded/?start=" ++ start_date ++ "&end=" ++ end_date
  ++ "&n_stock=" ++ str_int n.

(** A service whose answer has a body that is not JSON. *)
Definition env_html : env :=
  mk_env (fun _ => Some "secret")
         (fun u _ => Responded (mk_response 200 "OK" u
                                  (inr (mk_exn JSONDecodeError
                                          "Expecting value: line 1 column 1 (char 0)"))))
         (mk_date 2026 11 3) true.

(** A service whose answer has a body with an integer of 5000 digits:
    [response.json()] raises the plain [ValueError] of [int]. *)
Definition env_long_int : env :=
  mk_env (fun _ => Some "secret")
         (fun u _ => Responded (mk_response 200 "OK" u
                                  (inr (mk_exn ValueError
                                          "Exceeds the limit (4300 digits) for integer string conversion: value has 5000 digits; use sys.set_int_max_str_digits() to increase the limit"))))
         (mk_date 2026 11 3) true.

(** A call that is interrupted from outside while [requests.get] waits. *)
Definition env_interrupted : env :=
  mk_env (fun _ => None)
         (fun _ _ => Failed (mk_exn OtherException "KeyboardInterrupt"))
         (mk_date 2026 11 3) true.

(** [w] with a service that answers every request with status 200 and the
    body [v]. *)
Definition answering (w : env) (v : pyval) : env :=
  mk_env (getenv w) (fun u _ => Responded (mk_response 200 "OK" u (inl v))) (clock w)
         (fills_year w).

(** The matches in [cands] after which the character [c] comes, with [c]
    read as well. *)
Fixpoint after_sep (c : ascii) (cands : list (string * string)) : list (string * string) :=
  match cands with
  | [] => []
  | (txt, String x s') :: cands' =>
      if Ascii.eqb x c then (txt, s') :: after_sep c cands' else after_sep c cands'
  | (_, "") :: cands' => after_sep c cands'
  end.

(** The text of the first match in [cands] when it reads everything. *)
Definition whole (cands : list (string * string)) : option string :=
  match hd_error cands with
  | Some (txt, "") => Some txt
  | _ => None
  end.

(** The least and the greatest number of characters a pattern reads. *)
Fixpoint min_len (r : regex) : nat :=
  match r with
  | Chr _ | Rng _ _ | Digit => 1
  | Cat r1 r2 => min_len r1 + min_len r2
  | Alt r1 r2 => Nat.min (min_len r1) (min_len r2)
  end.

Fixpoint max_len (r : regex) : nat :=
  match r with
  | Chr _ | Rng _ _ | Digit => 1
  | Cat r1 r2 => max_len r1 + max_len r2
  | Alt r1 r2 => Nat.max (max_len r1) (max_len r2)
  end.

Fixpoint pieces_min (ps : list piece) : nat :=
  match ps with
  | [] => 0
  | Lit _ :: ps' => S (pieces_min ps')
  | Group _ r :: ps' => min_len r + pieces_min ps'
  end.

Fixpoint pieces_max (ps : list piece) : nat :=
  match ps with
  | [] => 0
  | Lit _ :: ps' => S (pieces_max ps')
  | Group _ r :: ps' => max_len r + pieces_max ps'
  end.

(** The requests in a trace with their headers, in order. *)
Fixpoint gets (tr : list event) : list (string * headers) :=
  match tr with
  | [] => []
  | EvGet url h :: tr' => (url, h) :: gets tr'
  | EvLog _ _ :: tr' => gets tr'
  end.

(** * Digits and padded numbers *)

(** A property of the integers [lo], ..., [lo + n - 1] holds when it holds
    of each of them. *)
Lemma Z_range_cases (P : Z -> Prop) (lo : Z) (n : nat) :
  List.Forall P (map (fun i => lo + Z.of_nat i) (seq 0 n)) ->
  forall k, lo <= k < lo + Z.of_nat n -> P k.
Proof.
  intros HF k Hk. rewrite List.Forall_forall in HF. apply HF.
  apply in_map_iff. exists (Z.to_nat (k - lo)). split; [lia |].
  apply in_seq. lia.
Qed.

Ltac range_cases k lo n :=
  pattern k; apply (Z_range_cases _ lo n);
  [ cbv [map seq]; repeat (apply List.Forall_cons); try apply List.Forall_nil
  | lia ].

Lemma is_digit_chr k : 0 <= k < 10 -> is_digit (digit_chr k) = true.
Proof. intros H. range_cases k 0 10%nat; reflexivity. Qed.

Lemma digit_val_chr k : 0 <= k < 10 -> digit_val (digit_chr k) = k.
Proof. intros H. range_cases k 0 10%nat; reflexivity. Qed.

Lemma lstrip_digit k s : 0 <= k < 10 -> lstrip (String (digit_chr k) s) = String (digit_chr k) s.
Proof. intros H. revert s. range_cases k 0 10%nat; reflexivity. Qed.

Lemma digit_bounds n q : 0 <= n -> 0 <= n / q mod 10 < 10.
Proof. intros _. apply Z.mod_pos_bound. lia. Qed.

Lemma py_int_pad4 y : 0 <= y <= 9999 -> py_int (pad4 y) = Some y.
Proof.
  intros H. unfold py_int, pad4.
  assert (H3 := digit_bounds y 1000 ltac:(lia)).
  assert (H2 := digit_bounds y 100 ltac:(lia)).
  assert (H1 := digit_bounds y 10 ltac:(lia)).
  assert (H0 : 0 <= y mod 10 < 10) by (apply Z.mod_pos_bound; lia).
  rewrite lstrip_digit by assumption.
  cbn [digits_to_Z].
  rewrite !is_digit_chr, !digit_val_chr by assumption.
  f_equal. Z.div_mod_to_equations. lia.
Qed.

Lemma py_int_pad2 n : 0 <= n <= 99 -> py_int (pad2 n) = Some n.
Proof.
  intros H. unfold py_int, pad2.
  assert (H1 := digit_bounds n 10 ltac:(lia)).
  assert (H0 : 0 <= n mod 10 < 10) by (apply Z.mod_pos_bound; lia).
  rewrite lstrip_digit by assumption.
  cbn [digits_to_Z].
  rewrite !is_digit_chr, !digit_val_chr by assumption.
  f_equal. Z.div_mod_to_equations. lia.
Qed.

(** * Matching the date patterns *)

Lemma hd_error_flat_map {A B} (f : A -> list B) (l : list A) (x : A) (y : B) :
  hd_error l = Some x -> hd_error (f x) = Some y -> hd_error (flat_map f l) = Some y.
Proof.
  destruct l as [| x' l']; cbn; [discriminate |].
  intros [= ->]. destruct (f x) as [| y' ys]; cbn; [discriminate | auto].
Qed.

Lemma hd_error_map {A B} (f : A -> B) (l : list A) (x : A) :
  hd_error l = Some x -> hd_error (map f l) = Some (f x).
Proof. destruct l; cbn; [discriminate | now intros [= ->]]. Qed.

(** The first match of a group followed by the rest of the pattern. *)
Lemma pmatch_group k r ps s txt s' g rest :
  hd_error (rmatch r s) = Some (txt, s') ->
  hd_error (pmatch ps s') = Some (g, rest) ->
  hd_error (pmatch (Group k r :: ps) s) = Some ((k, txt) :: g, rest).
Proof.
  intros Hr Hp. cbn [pmatch].
  eapply hd_error_flat_map; [exact Hr |].
  cbn [fst snd]. now rewrite (hd_error_map _ _ _ Hp).
Qed.

Lemma pmatch_lit c ps s : pmatch (Lit c :: ps) (String c s) = pmatch ps s.
Proof. cbn [pmatch]. now rewrite Ascii.eqb_refl. Qed.

Lemma rmatch_Y a b c d rest :
  is_digit a = true -> is_digit b = true -> is_digit c = true -> is_digit d = true ->
  rmatch re_Y (String a (String b (String c (String d rest))))
  = [(String a (String b (String c (String d ""))), rest)].
Proof.
  intros Ha Hb Hc Hd. unfold re_Y.
  cbn [rmatch one_char]. rewrite Ha. cbn [flat_map fst snd one_char map app].
  rewrite Hb. cbn [flat_map fst snd one_char map app].
  rewrite Hc. cbn [flat_map fst snd one_char map app].
  rewrite Hd. reflexivity.
Qed.

(** Fewer than four digits in front: [%Y] does not match. *)
Lemma rmatch_Y_short a b c rest :
  is_digit c = false ->
  rmatch re_Y (String a (String b (String c rest))) = [].
Proof.
  intros Hc. unfold re_Y. cbn [rmatch one_char].
  destruct (is_digit a); [| reflexivity]. cbn [flat_map fst snd one_char map app].
  destruct (is_digit b); [| reflexivity]. cbn [flat_map fst snd one_char map app].
  rewrite Hc. reflexivity.
Qed.

Lemma rmatch_m m rest :
  1 <= m <= 12 -> hd_error (rmatch re_m (pad2 m ++ rest)) = Some (pad2 m, rest).
Proof. intros H. revert rest. range_cases m 1 12%nat; reflexivity. Qed.

Lemma rmatch_d d rest :
  1 <= d <= 31 -> hd_error (rmatch re_d (pad2 d ++ rest)) = Some (pad2 d, rest).
Proof. intros H. revert rest. range_cases d 1 31%nat; reflexivity. Qed.

Lemma pattern_ymd : pattern "%Y-%m-%d" = Some ps_ymd.
Proof. reflexivity. Qed.

Lemma pattern_dmy : pattern "%d/%m/%Y" = Some ps_dmy.
Proof. reflexivity. Qed.

Lemma valid_date_bounds d :
  valid_date d = true ->
  1 <= year d <= 9999 /\ 1 <= month d <= 12 /\ 1 <= day d <= 31.
Proof.
  unfold valid_date, days_in_month. intros H.
  repeat (apply andb_prop in H; destruct H as [H ?]).
  destruct (month d =? 2), (is_leap (year d)),
    ((month d =? 4) || (month d =? 6) || (month d =? 9) || (month d =? 11))%bool;
    lia.
Qed.

Lemma pad4_digits y :
  0 <= y ->
  exists a b c d, pad4 y = String a (String b (String c (String d ""))) /\
    is_digit a = true /\ is_digit b = true /\ is_digit c = true /\ is_digit d = true.
Proof.
  intros H. do 4 eexists. split; [reflexivity |].
  repeat split; apply is_digit_chr; apply Z.mod_pos_bound; lia.
Qed.

Lemma pmatch_ymd_iso d :
  valid_date d = true ->
  hd_error (pmatch ps_ymd (iso_format d))
  = Some ([("Y"%char, pad4 (year d)); ("m"%char, pad2 (month d)); ("d"%char, pad2 (day d))], "").
Proof.
  intros Hv. destruct (valid_date_bounds d Hv) as (Hy & Hm & Hd).
  destruct (pad4_digits (year d)) as (a & b & c & e & Hp & Ha & Hb & Hc & He); [lia |].
  unfold iso_format, ps_ymd. rewrite Hp. cbn [String.append].
  eapply pmatch_group; [rewrite rmatch_Y by assumption; reflexivity |].
  rewrite pmatch_lit.
  eapply pmatch_group; [apply rmatch_m; assumption |].
  rewrite pmatch_lit.
  change (pad2 (day d)) with (pad2 (day d) ++ "") at 1.
  eapply pmatch_group; [apply rmatch_d; assumption |].
  reflexivity.
Qed.

Lemma pmatch_dmy_dmy d :
  valid_date d = true ->
  hd_error (pmatch ps_dmy (dmy_format d))
  = Some ([("d"%char, pad2 (day d)); ("m"%char, pad2 (month d)); ("Y"%char, pad4 (year d))], "").
Proof.
  intros Hv. destruct (valid_date_bounds d Hv) as (Hy & Hm & Hd).
  destruct (pad4_digits (year d)) as (a & b & c & e & Hp & Ha & Hb & Hc & He); [lia |].
  unfold dmy_format, ps_dmy.
  eapply pmatch_group; [apply rmatch_d; assumption |].
  cbn [String.append]. rewrite pmatch_lit.
  eapply pmatch_group; [apply rmatch_m; assumption |].
  cbn [String.append]. rewrite pmatch_lit.
  rewrite Hp.
  eapply pmatch_group; [rewrite rmatch_Y by assumption; reflexivity |].
  reflexivity.
Qed.

(** A date written [DD/MM/YYYY] has no match for [%Y-%m-%d]: its third
    character is not a digit. *)
Lemma pmatch_ymd_dmy d : pmatch ps_ymd (dmy_format d) = [].
Proof.
  unfold dmy_format, ps_ymd, pad2. cbn [String.append pmatch].
  rewrite rmatch_Y_short by reflexivity. reflexivity.
Qed.

(** * [strptime] and [strftime] *)

Lemma strftime_iso d : strftime_text true d "%Y-%m-%d" = iso_format d.
Proof. reflexivity. Qed.

(** From 1000 on a year has its four digits without any filling. *)
Lemma str_int_four_digits y : 1000 <= y <= 9999 -> str_int y = pad4 y.
Proof.
  intros H.
  assert (Hall : forallb (fun i => String.eqb (str_int (1000 + Z.of_nat i))
                                     (pad4 (1000 + Z.of_nat i)))
                   (seq 0 (Z.to_nat 9000)) = true) by (vm_compute; reflexivity).
  rewrite forallb_forall in Hall. specialize (Hall (Z.to_nat (y - 1000))).
  replace (1000 + Z.of_nat (Z.to_nat (y - 1000))) with y in Hall by lia.
  apply String.eqb_eq, Hall, in_seq. lia.
Qed.

(** Where the year is written in four digits, [strftime] writes the date
    in ISO form. *)
Lemma date_text_iso w d :
  valid_date d = true -> four_digit_year w d -> date_text w d = iso_format d.
Proof.
  intros Hv Hf. destruct (valid_date_bounds d Hv) as (Hy & _).
  unfold four_digit_year in Hf.
  unfold date_text, iso_format. cbn [strftime_text]. unfold year_text.
  destruct (fills_year w); [reflexivity |].
  destruct Hf as [Hf | Hf]; [discriminate Hf |].
  now rewrite str_int_four_digits by lia.
Qed.

Lemma group_ints_ymd d :
  valid_date d = true ->
  let g := [("Y"%char, pad4 (year d)); ("m"%char, pad2 (month d)); ("d"%char, pad2 (day d))] in
  group_int "Y" 1900 g = Some (year d) /\
  group_int "m" 1 g = Some (month d) /\
  group_int "d" 1 g = Some (day d).
Proof.
  intros Hv. destruct (valid_date_bounds d Hv) as (Hy & Hm & Hd).
  unfold group_int. cbn [group Ascii.eqb Bool.eqb].
  rewrite py_int_pad4, !py_int_pad2 by lia. auto.
Qed.

Lemma group_ints_dmy d :
  valid_date d = true ->
  let g := [("d"%char, pad2 (day d)); ("m"%char, pad2 (month d)); ("Y"%char, pad4 (year d))] in
  group_int "Y" 1900 g = Some (year d) /\
  group_int "m" 1 g = Some (month d) /\
  group_int "d" 1 g = Some (day d).
Proof.
  intros Hv. destruct (valid_date_bounds d Hv) as (Hy & Hm & Hd).
  unfold group_int. cbn [group Ascii.eqb Bool.eqb].
  rewrite py_int_pad4, !py_int_pad2 by lia. auto.
Qed.

(** Parsing what [strftime] wrote gives the date back. *)
Lemma strptime_ymd_iso d :
  valid_date d = true -> strptime_date (iso_format d) "%Y-%m-%d" = Return d.
Proof.
  intros Hv. unfold strptime_date.
  rewrite pattern_ymd, (pmatch_ymd_iso d Hv).
  destruct (group_ints_ymd d Hv) as (-> & -> & ->).
  destruct d as [y m dd]. cbn [year month day] in *. now rewrite Hv.
Qed.

Lemma strptime_dmy_dmy d :
  valid_date d = true -> strptime_date (dmy_format d) "%d/%m/%Y" = Return d.
Proof.
  intros Hv. unfold strptime_date.
  rewrite pattern_dmy, (pmatch_dmy_dmy d Hv).
  destruct (group_ints_dmy d Hv) as (-> & -> & ->).
  destruct d as [y m dd]. cbn [year month day] in *. now rewrite Hv.
Qed.

Lemma strptime_ymd_dmy d :
  strptime_date (dmy_format d) "%Y-%m-%d"
  = value_error "time data does not match format".
Proof.
  unfold strptime_date. now rewrite pattern_ymd, pmatch_ymd_dmy.
Qed.

(** [strptime] hands out calendar dates only, and fails with [ValueError]
    only. *)
Lemma strptime_valid s fmt d : strptime_date s fmt = Return d -> valid_date d = true.
Proof.
  unfold strptime_date, value_error. intros H.
  repeat match type of H with
         | context [match ?x with _ => _ end] => destruct x eqn:?
         end; try discriminate.
  now injection H as <-.
Qed.

Lemma strptime_raises s fmt e : strptime_date s fmt = Raise e -> exn_cls e = ValueError.
Proof.
  unfold strptime_date, value_error. intros H.
  repeat match type of H with
         | context [match ?x with _ => _ end] => destruct x eqn:?
         end; try discriminate; now injection H as <-.
Qed.

Lemma num4_pad4 y :
  0 <= y <= 9999 ->
  num4 (digit_chr (y / 1000 mod 10)) (digit_chr (y / 100 mod 10))
       (digit_chr (y / 10 mod 10)) (digit_chr (y mod 10)) = y.
Proof.
  intros H. unfold num4.
  rewrite !digit_val_chr by (apply Z.mod_pos_bound; lia).
  Z.div_mod_to_equations. lia.
Qed.

Lemma num2_pad2 n :
  0 <= n <= 99 -> num2 (digit_chr (n / 10 mod 10)) (digit_chr (n mod 10)) = n.
Proof.
  intros H. unfold num2.
  rewrite !digit_val_chr by (apply Z.mod_pos_bound; lia).
  Z.div_mod_to_equations. lia.
Qed.

Lemma is_iso_date_iso_format d : valid_date d = true -> is_iso_date (iso_format d) = true.
Proof.
  intros Hv. destruct (valid_date_bounds d Hv) as (Hy & Hm & Hd).
  unfold iso_format, pad4, pad2. cbn [String.append is_iso_date].
  rewrite !is_digit_chr by (apply Z.mod_pos_bound; lia).
  rewrite num4_pad4, !num2_pad2 by lia.
  destruct d. cbn [year month day] in *. now rewrite Hv.
Qed.

Lemma digit_chr_val a : digit_chr (digit_val a) = a.
Proof.
  unfold digit_chr, digit_val.
  replace (Z.to_nat (48 + (Z.of_nat (nat_of_ascii a) - 48))) with (nat_of_ascii a) by lia.
  apply ascii_nat_embedding.
Qed.

Lemma is_digit_val a : is_digit a = true -> 0 <= digit_val a < 10.
Proof. unfold is_digit, digit_val. lia. Qed.

Lemma pad4_of_digits p q r t :
  0 <= p < 10 -> 0 <= q < 10 -> 0 <= r < 10 -> 0 <= t < 10 ->
  pad4 (1000 * p + 100 * q + 10 * r + t)
  = String (digit_chr p) (String (digit_chr q) (String (digit_chr r) (String (digit_chr t) ""))).
Proof. intros. unfold pad4. repeat f_equal; Z.div_mod_to_equations; lia. Qed.

Lemma pad2_of_digits p q :
  0 <= p < 10 -> 0 <= q < 10 ->
  pad2 (10 * p + q) = String (digit_chr p) (String (digit_chr q) "").
Proof. intros. unfold pad2. repeat f_equal; Z.div_mod_to_equations; lia. Qed.

Lemma pad4_num4 a b c d :
  is_digit a = true -> is_digit b = true -> is_digit c = true -> is_digit d = true ->
  pad4 (num4 a b c d) = String a (String b (String c (String d ""))).
Proof.
  intros Ha Hb Hc Hd. unfold num4.
  rewrite pad4_of_digits by (apply is_digit_val; assumption).
  now rewrite !digit_chr_val.
Qed.

Lemma pad2_num2 a b :
  is_digit a = true -> is_digit b = true -> pad2 (num2 a b) = String a (String b "").
Proof.
  intros Ha Hb. unfold num2.
  rewrite pad2_of_digits by (apply is_digit_val; assumption).
  now rewrite !digit_chr_val.
Qed.

(** The strings [is_iso_date] accepts are the ISO forms of the calendar
    dates. *)
Lemma is_iso_date_inv s :
  is_iso_date s = true -> exists d, valid_date d = true /\ s = iso_format d.
Proof.
  destruct s as [| y3 [| y2 [| y1 [| y0 [| h1 [| m1 [| m0 [| h2 [| d1 [| d0 [| ? ?]]]]]]]]]]];
    try discriminate.
  cbn [is_iso_date]. intros H.
  do 10 (apply andb_prop in H; destruct H as [H ?]).
  repeat match goal with
         | E : Ascii.eqb _ _ = true |- _ => apply Ascii.eqb_eq in E; subst
         end.
  eexists. split; [eassumption |].
  unfold iso_format. cbn [year month day].
  rewrite pad4_num4, !pad2_num2 by assumption. reflexivity.
Qed.

(** * [format_date], branch by branch *)

Lemma format_date_first s w d :
  strptime_date s "%Y-%m-%d" = Return d ->
  Llama.format_date s w = ([], Return (date_text w d)).
Proof.
  intros H. unfold Llama.format_date, try_except, bind, strptime, strftime.
  rewrite H. reflexivity.
Qed.

Lemma format_date_second s w e d :
  strptime_date s "%Y-%m-%d" = Raise e ->
  strptime_date s "%d/%m/%Y" = Return d ->
  Llama.format_date s w = ([], Return (date_text w d)).
Proof.
  intros H1 H2. unfold Llama.format_date, try_except, bind, strptime, strftime.
  rewrite H1, (strptime_raises _ _ _ H1), H2. reflexivity.
Qed.

Lemma format_date_fallback s w e1 e2 :
  strptime_date s "%Y-%m-%d" = Raise e1 ->
  strptime_date s "%d/%m/%Y" = Raise e2 ->
  Llama.format_date s w
  = ([EvLog WARNING ("Invalid date format: " ++ s ++ ". Using today's date.")],
     Return (date_text w (clock w))).
Proof.
  intros H1 H2.
  unfold Llama.format_date, try_except, bind, strptime, strftime, logger_warning, emit, today.
  rewrite H1, (strptime_raises _ _ _ H1), H2, (strptime_raises _ _ _ H2). reflexivity.
Qed.

(** Whatever the input, [format_date] returns, and what it returns is what
    [strftime] writes of a calendar date: a parsed one, or today's. *)
Lemma format_date_returns s w :
  valid_date (clock w) = true ->
  exists tr d, valid_date d = true /\ Llama.format_date s w = (tr, Return (date_text w d)).
Proof.
  intros Hc.
  destruct (strptime_date s "%Y-%m-%d") as [d | e1] eqn:H1.
  - exists [], d. split; [eapply strptime_valid; eauto | now apply format_date_first].
  - destruct (strptime_date s "%d/%m/%Y") as [d | e2] eqn:H2.
    + exists [], d. split; [eapply strptime_valid; eauto | eapply format_date_second; eauto].
    + eexists _, (clock w). split; [assumption | eapply format_date_fallback; eauto].
Qed.

(** A calendar date in ISO form comes back as [strftime] writes it. *)
Lemma format_date_iso w d :
  valid_date d = true ->
  Llama.format_date (iso_format d) w = ([], Return (date_text w d)).
Proof. intros Hv. apply format_date_first. now apply strptime_ymd_iso. Qed.

(** What [strptime] accepts beyond the two canonical spellings, and what it
    does not: month and day may come without their leading zero, and a
    string of the right shape that names no calendar date is not parsed. *)
Example format_date_unpadded :
  Llama.format_date "2024-6-1" example_env = ([], Return "2024-06-01") /\
  Llama.format_date "1/6/2024" example_env = ([], Return "2024-06-01").
Proof. split; reflexivity. Qed.

Example format_date_no_such_day :
  Llama.format_date "2024-02-30" example_env
  = ([EvLog WARNING "Invalid date format: 2024-02-30. Using today's date."],
     Return "2026-11-03").
Proof. reflexivity. Qed.

(** ** [format_date] and years below 1000 *)

(** C2.  Where [strftime] does not fill the year, a date of a year below
    1000 does not come back in the form [YYYY-MM-DD]: the zeros of its year
    are gone, whichever of the two formats it came in. *)
Theorem format_date_drops_year_zeros :
  is_iso_date "0999-06-01" = true /\
  Llama.format_date "0999-06-01" env_glibc = ([], Return "999-06-01") /\
  Llama.format_date "01/01/0001" env_glibc = ([], Return "1-01-01").
Proof. split; [reflexivity | split; reflexivity]. Qed.

(** C3.  [format_date] returns there too, but what it returns for such a
    date is no [YYYY-MM-DD] string. *)
Theorem format_date_result_not_iso :
  exists v,
    Llama.format_date "0999-06-01" env_glibc = ([], Return v) /\
    is_iso_date v = false.
Proof. exists "999-06-01". split; reflexivity. Qed.

(** C9.  Nor is [format_date] idempotent there: the result for such a date
    is a string that neither format parses, and a second application turns
    it into today's date. *)
Theorem format_date_not_idempotent :
  Llama.format_date "0999-06-01" env_glibc = ([], Return "999-06-01") /\
  Llama.format_date "999-06-01" env_glibc
  = ([EvLog WARNING "Invalid date format: 999-06-01. Using today's date."],
     Return "2026-11-03").
Proof. split; reflexivity. Qed.

(** * [retrieve_from_endpoint] *)

Lemma append_not_empty (a b : string) : b <> "" -> a ++ b <> "".
Proof. destruct a; cbn [String.append]; [auto | discriminate]. Qed.

Lemma http_error_msg_error r :
  400 <= status_code r < 600 ->
  exists c msg, http_error_msg r = String c msg.
Proof.
  intros H. assert (Hne : http_error_msg r <> "").
  { unfold http_error_msg.
    destruct ((400 <=? status_code r) && (status_code r <? 500))%bool eqn:E1.
    - apply append_not_empty. discriminate.
    - destruct ((500 <=? status_code r) && (status_code r <? 600))%bool eqn:E2.
      + apply append_not_empty. discriminate.
      + lia. }
  destruct (http_error_msg r); [contradiction | eauto].
Qed.

Lemma http_error_msg_none r :
  ~ 400 <= status_code r < 600 -> http_error_msg r = "".
Proof.
  intros H. unfold http_error_msg.
  destruct ((400 <=? status_code r) && (status_code r <? 500))%bool eqn:E1; [lia |].
  destruct ((500 <=? status_code r) && (status_code r <? 600))%bool eqn:E2; [lia |].
  reflexivity.
Qed.

Lemma raise_for_status_error r w :
  400 <= status_code r < 600 ->
  raise_for_status r w = ([], Raise (mk_exn HTTPError (http_error_msg r))).
Proof.
  intros H. unfold raise_for_status.
  destruct (http_error_msg_error r H) as (c & msg & ->). reflexivity.
Qed.

Lemma raise_for_status_ok r w :
  ~ 400 <= status_code r < 600 -> raise_for_status r w = ([], Return tt).
Proof. intros H. unfold raise_for_status. now rewrite http_error_msg_none. Qed.

Ltac run_py :=
  unfold Groq.retrieve_from_endpoint, Llama.retrieve_from_endpoint,
    Groq.SECTORS_API_KEY, Llama.SECTORS_API_KEY,
    try_except, bind, ask, requests_get, response_json, ret, raise,
    logger_error, emit, auth_headers in *.

Section Retrieve.

Variable json_dumps : pyval -> string.
Variables (w : env) (url : string).

Lemma groq_retrieve_failed e :
  network w url (auth_headers w) = Failed e ->
  Groq.retrieve_from_endpoint json_dumps url w = ([EvGet url (auth_headers w)], Raise e).
Proof. intros H. run_py. now rewrite H. Qed.

Lemma groq_retrieve_error r :
  network w url (auth_headers w) = Responded r ->
  400 <= status_code r < 600 ->
  Groq.retrieve_from_endpoint json_dumps url w
  = ([EvGet url (auth_headers w)], Raise (mk_exn HTTPError (http_error_msg r))).
Proof. intros H Hs. run_py. now rewrite H, raise_for_status_error. Qed.

Lemma groq_retrieve_body r v :
  network w url (auth_headers w) = Responded r ->
  ~ 400 <= status_code r < 600 ->
  resp_json r = inl v ->
  Groq.retrieve_from_endpoint json_dumps url w
  = ([EvGet url (auth_headers w)], Return (PStr (json_dumps v))).
Proof. intros H Hs Hj. run_py. now rewrite H, raise_for_status_ok, Hj. Qed.

(** What [response.json()] raises comes out of the groq variant, whatever
    its class. *)
Lemma groq_retrieve_undecodable r e :
  network w url (auth_headers w) = Responded r ->
  ~ 400 <= status_code r < 600 ->
  resp_json r = inr e ->
  Groq.retrieve_from_endpoint json_dumps url w = ([EvGet url (auth_headers w)], Raise e).
Proof. intros H Hs Hj. run_py. now rewrite H, raise_for_status_ok, Hj. Qed.

Lemma llama_retrieve_failed e :
  network w url (auth_headers w) = Failed e ->
  issubclass (exn_cls e) RequestException = true ->
  Llama.retrieve_from_endpoint url w
  = ([EvGet url (auth_headers w); error_record url e],
     Return (PDict [("error", PStr (exn_str e))])).
Proof. intros H Hc. run_py. now rewrite H, Hc. Qed.

Lemma llama_retrieve_error r :
  network w url (auth_headers w) = Responded r ->
  400 <= status_code r < 600 ->
  Llama.retrieve_from_endpoint url w
  = ([EvGet url (auth_headers w); error_record url (mk_exn HTTPError (http_error_msg r))],
     Return (PDict [("error", PStr (http_error_msg r))])).
Proof. intros H Hs. run_py. now rewrite H, raise_for_status_error. Qed.

Lemma llama_retrieve_body r v :
  network w url (auth_headers w) = Responded r ->
  ~ 400 <= status_code r < 600 ->
  resp_json r = inl v ->
  Llama.retrieve_from_endpoint url w = ([EvGet url (auth_headers w)], Return v).
Proof. intros H Hs Hj. run_py. now rewrite H, raise_for_status_ok, Hj. Qed.

(** The llama variant catches what [response.json()] raises when it is a
    [RequestException], as the [JSONDecodeError] of requests is, and lets
    the rest through. *)
Lemma llama_retrieve_undecodable r e :
  network w url (auth_headers w) = Responded r ->
  ~ 400 <= status_code r < 600 ->
  resp_json r = inr e ->
  issubclass (exn_cls e) RequestException = true ->
  Llama.retrieve_from_endpoint url w
  = ([EvGet url (auth_headers w); error_record url e],
     Return (PDict [("error", PStr (exn_str e))])).
Proof. intros H Hs Hj Hc. run_py. now rewrite H, raise_for_status_ok, Hj, Hc. Qed.

Lemma llama_retrieve_json_uncaught r e :
  network w url (auth_headers w) = Responded r ->
  ~ 400 <= status_code r < 600 ->
  resp_json r = inr e ->
  issubclass (exn_cls e) RequestException = false ->
  Llama.retrieve_from_endpoint url w = ([EvGet url (auth_headers w)], Raise e).
Proof. intros H Hs Hj Hc. run_py. now rewrite H, raise_for_status_ok, Hj, Hc. Qed.

(** The [except] clause of the llama variant lets through what is not a
    [RequestException]. *)
Lemma llama_retrieve_uncaught e :
  network w url (auth_headers w) = Failed e ->
  issubclass (exn_cls e) RequestException = false ->
  Llama.retrieve_from_endpoint url w = ([EvGet url (auth_headers w)], Raise e).
Proof. intros H Hc. run_py. now rewrite H, Hc. Qed.

(** Every call makes one request, to [url]. *)
Lemma groq_retrieve_requested :
  requested (trace (Groq.retrieve_from_endpoint json_dumps url w)) = [url].
Proof.
  destruct (network w url (auth_headers w)) as [r | e] eqn:H.
  - destruct (Z_le_dec 400 (status_code r)) as [H4 |];
      [destruct (Z_lt_dec (status_code r) 600) as [H6 |] |].
    + now rewrite (groq_retrieve_error r H).
    + destruct (resp_json r) as [v | msg] eqn:Hj.
      * rewrite (groq_retrieve_body r v H); [reflexivity | lia | assumption].
      * rewrite (groq_retrieve_undecodable r msg H); [reflexivity | lia | assumption].
    + destruct (resp_json r) as [v | msg] eqn:Hj.
      * rewrite (groq_retrieve_body r v H); [reflexivity | lia | assumption].
      * rewrite (groq_retrieve_undecodable r msg H); [reflexivity | lia | assumption].
  - now rewrite (groq_retrieve_failed e H).
Qed.

Lemma llama_retrieve_requested :
  requested (trace (Llama.retrieve_from_endpoint url w)) = [url].
Proof.
  run_py. destruct (network w url _) as [r | e].
  - destruct (raise_for_status r w) as [tr [[] | e]] eqn:Hr.
    + assert (tr = []) as ->.
      { unfold raise_for_status in Hr. destruct (http_error_msg r); now inversion Hr. }
      destruct (resp_json r) as [v | e]; cbn.
      * reflexivity.
      * destruct (issubclass (exn_cls e) RequestException); reflexivity.
    + assert (tr = []) as ->.
      { unfold raise_for_status in Hr. destruct (http_error_msg r); now inversion Hr. }
      cbn. destruct (issubclass (exn_cls e) RequestException); reflexivity.
  - destruct (issubclass (exn_cls e) RequestException); reflexivity.
Qed.

End Retrieve.

Example service_unreachable :
  Groq.retrieve_from_endpoint sample_dumps "https://api.sectors.app/v1/daily/BBCA/" env_down
  = ([EvGet "https://api.sectors.app/v1/daily/BBCA/" [("Authorization", None)]],
     Raise (mk_exn ConnectionError "Max retries exceeded")) /\
  Llama.retrieve_from_endpoint "https://api.sectors.app/v1/daily/BBCA/" env_down
  = ([EvGet "https://api.sectors.app/v1/daily/BBCA/" [("Authorization", None)];
      EvLog ERROR
        "Error retrieving data from https://api.sectors.app/v1/daily/BBCA/: Max retries exceeded"],
     Return (PDict [("error", PStr "Max retries exceeded")])).
Proof. split; reflexivity. Qed.

(** ** The error policy of the two variants *)

(** C1, as amended.  When the request fails, by an exception of
    [requests.get] or by a 4xx or 5xx status, the groq variant lets the
    exception out, and the llama variant logs it and returns the dict
    [{"error": str(e)}]. *)
Theorem retrieve_error_policy (json_dumps : pyval -> string) (w : env) (url : string) (e : exn) :
  request_fails w url e ->
  Groq.retrieve_from_endpoint json_dumps url w = ([EvGet url (auth_headers w)], Raise e) /\
  Llama.retrieve_from_endpoint url w
  = ([EvGet url (auth_headers w); error_record url e],
     Return (PDict [("error", PStr (exn_str e))])).
Proof.
  intros [[H Hc] | (r & H & Hs & ->)].
  - split; [now apply groq_retrieve_failed | now apply llama_retrieve_failed].
  - split; [now apply groq_retrieve_error | now apply llama_retrieve_error].
Qed.

Lemma retrieve_error_policy_witness :
  Groq.retrieve_from_endpoint sample_dumps "https://api.sectors.app/v1/daily/XXXX/" env_404
  = ([EvGet "https://api.sectors.app/v1/daily/XXXX/" [("Authorization", None)]],
     Raise (mk_exn HTTPError
              "404 Client Error: Not Found for url: https://api.sectors.app/v1/daily/XXXX/")) /\
  result (Llama.retrieve_from_endpoint "https://api.sectors.app/v1/daily/XXXX/" env_404)
  = Return (PDict [("error",
       PStr "404 Client Error: Not Found for url: https://api.sectors.app/v1/daily/XXXX/")]).
Proof.
  destruct (retrieve_error_policy sample_dumps env_404 "https://api.sectors.app/v1/daily/XXXX/"
              (mk_exn HTTPError
                 "404 Client Error: Not Found for url: https://api.sectors.app/v1/daily/XXXX/"))
    as [Hg Hl].
  - right. eexists. split; [reflexivity |]. split; [cbn; lia | reflexivity].
  - split; [exact Hg | now rewrite Hl].
Defined.

(** C1, as stated, fails: a status outside 200..299 need not be a failure.
    On a 300 response with a JSON body both variants return normally. *)
Lemma retrieve_error_policy_not_non_2xx :
  ~ (forall (json_dumps : pyval -> string) (w : env) (url : string) (r : response),
        network w url (auth_headers w) = Responded r ->
        ~ 200 <= status_code r < 300 ->
        raises (result (Groq.retrieve_from_endpoint json_dumps url w)) /\
        exists msg, result (Llama.retrieve_from_endpoint url w)
                    = Return (PDict [("error", PStr msg)])).
Proof.
  intros H.
  destruct (H sample_dumps env_300 "https://api.sectors.app/v1/daily/BBCA/"
              (mk_response 300 "Multiple Choices" "https://api.sectors.app/v1/daily/BBCA/"
                 (inl (PList []))))
    as [[e He] _].
  - reflexivity.
  - cbn. lia.
  - discriminate He.
Qed.

(** C8.  On a 2xx response whose body decodes, the decoded body is handed
    back as it is by the llama variant and as its [json.dumps] text by the
    groq variant, after the one request. *)
Theorem retrieve_passes_body_through
    (json_dumps : pyval -> string) (w : env) (url : string) (r : response) (v : pyval) :
  network w url (auth_headers w) = Responded r ->
  200 <= status_code r < 300 ->
  resp_json r = inl v ->
  Llama.retrieve_from_endpoint url w = ([EvGet url (auth_headers w)], Return v) /\
  Groq.retrieve_from_endpoint json_dumps url w
  = ([EvGet url (auth_headers w)], Return (PStr (json_dumps v))).
Proof.
  intros H Hs Hj. split.
  - apply (llama_retrieve_body w url r v); [assumption | lia | assumption].
  - apply (groq_retrieve_body json_dumps w url r v); [assumption | lia | assumption].
Qed.

Lemma retrieve_passes_body_through_witness :
  Llama.retrieve_from_endpoint "https://api.sectors.app/v1/daily/BBCA/" example_env
  = ([EvGet "https://api.sectors.app/v1/daily/BBCA/" [("Authorization", None)]],
     Return (PDict [])) /\
  Groq.retrieve_from_endpoint sample_dumps "https://api.sectors.app/v1/daily/BBCA/" example_env
  = ([EvGet "https://api.sectors.app/v1/daily/BBCA/" [("Authorization", None)]],
     Return (PStr "{}")).
Proof.
  apply (retrieve_passes_body_through sample_dumps example_env
           "https://api.sectors.app/v1/daily/BBCA/"
           (mk_response 200 "OK" "https://api.sectors.app/v1/daily/BBCA/" (inl (PDict [])))
           (PDict [])).
  - reflexivity.
  - cbn. lia.
  - reflexivity.
Defined.




(** * The requests the tools make *)

Lemma requested_app tr1 tr2 : requested (tr1 ++ tr2) = (requested tr1 ++ requested tr2)%list.
Proof.
  induction tr1 as [| [url h | lvl msg] tr1 IH]; cbn [requested app]; [reflexivity | |].
  - now rewrite IH.
  - exact IH.
Qed.

(** [format_date] returns and makes no request. *)
Lemma format_date_quiet s w :
  exists tr v, Llama.format_date s w = (tr, Return v) /\ requested tr = [].
Proof.
  destruct (strptime_date s "%Y-%m-%d") as [d | e1] eqn:H1.
  - do 2 eexists. split; [eapply format_date_first; eauto | reflexivity].
  - destruct (strptime_date s "%d/%m/%Y") as [d | e2] eqn:H2.
    + do 2 eexists. split; [eapply format_date_second; eauto | reflexivity].
    + do 2 eexists. split; [eapply format_date_fallback; eauto | reflexivity].
Qed.

(** The llama tools that take dates: both dates go through [format_date],
    then one request is made, to the URL built from the results. *)
Lemma llama_dated_request (mk_url : string -> string -> string) s e w :
  exists s' e',
    result (Llama.format_date s w) = Return s' /\
    result (Llama.format_date e w) = Return e' /\
    requested (trace ((start_date <- Llama.format_date s;;
                       end_date <- Llama.format_date e;;
                       Llama.retrieve_from_endpoint (mk_url start_date end_date)) w))
    = [mk_url s' e'].
Proof.
  destruct (format_date_quiet s w) as (tr1 & s' & Hs & Hq1).
  destruct (format_date_quiet e w) as (tr2 & e' & He & Hq2).
  exists s', e'. rewrite Hs, He. repeat split.
  unfold bind at 1. rewrite Hs. unfold bind at 1. rewrite He.
  pose proof (llama_retrieve_requested w (mk_url s' e')) as Hr.
  destruct (Llama.retrieve_from_endpoint (mk_url s' e') w) as [tr3 o].
  cbn [trace fst] in *. now rewrite !requested_app, Hq1, Hq2, Hr.
Qed.

(** C4.  [get_company_overview] requests
    [/v1/company/report/{stock}/?sections=overview] under the base URL, and
    nothing else; for BBCA that is [/v1/company/report/BBCA/?sections=overview]. *)
Theorem company_overview_request (json_dumps : pyval -> string) (w : env) :
  (forall stock,
      requested (trace (Groq.get_company_overview_2nd json_dumps stock w))
      = [base_url ++ "/v1/company/report/" ++ stock ++ "/?sections=overview"] /\
      requested (trace (Llama.get_company_overview stock w))
      = [base_url ++ "/v1/company/report/" ++ stock ++ "/?sections=overview"]) /\
  requested (trace (Groq.get_company_overview_2nd json_dumps "BBCA" w))
  = ["https://api.sectors.app/v1/company/report/BBCA/?sections=overview"] /\
  requested (trace (Llama.get_company_overview "BBCA" w))
  = ["https://api.sectors.app/v1/company/report/BBCA/?sections=overview"].
Proof.
  assert (H : forall stock,
             requested (trace (Groq.get_company_overview_2nd json_dumps stock w))
             = [base_url ++ "/v1/company/report/" ++ stock ++ "/?sections=overview"] /\
             requested (trace (Llama.get_company_overview stock w))
             = [base_url ++ "/v1/company/report/" ++ stock ++ "/?sections=overview"]).
  { intros stock. split.
    - apply groq_retrieve_requested.
    - apply llama_retrieve_requested. }
  split; [exact H |]. exact (H "BBCA").
Qed.

(** C5.  [get_daily_tx] requests
    [/v1/daily/{stock}/?start={start}&end={end}] under the base URL, and
    nothing else; the llama variant puts in the dates as [format_date]
    returns them.  For BBCA from 2024-06-01 to 2024-06-30 that is
    [/v1/daily/BBCA/?start=2024-06-01&end=2024-06-30] in both variants. *)
Theorem daily_tx_request (json_dumps : pyval -> string) (w : env) :
  (forall stock start_date end_date,
      requested (trace (Groq.get_daily_tx json_dumps stock start_date end_date w))
      = [base_url ++ "/v1/daily/" ++ stock ++ "/?start=" ++ start_date
         ++ "&end=" ++ end_date]) /\
  (forall stock start_date end_date,
      exists start_date' end_date',
        result (Llama.format_date start_date w) = Return start_date' /\
        result (Llama.format_date end_date w) = Return end_date' /\
        requested (trace (Llama.get_daily_tx stock start_date end_date w))
        = [base_url ++ "/v1/daily/" ++ stock ++ "/?start=" ++ start_date'
           ++ "&end=" ++ end_date']) /\
  requested (trace (Groq.get_daily_tx json_dumps "BBCA" "2024-06-01" "2024-06-30" w))
  = ["https://api.sectors.app/v1/daily/BBCA/?start=2024-06-01&end=2024-06-30"] /\
  requested (trace (Llama.get_daily_tx "BBCA" "2024-06-01" "2024-06-30" w))
  = ["https://api.sectors.app/v1/daily/BBCA/?start=2024-06-01&end=2024-06-30"].
Proof.
  assert (Hg : forall stock start_date end_date,
             requested (trace (Groq.get_daily_tx json_dumps stock start_date end_date w))
             = [base_url ++ "/v1/daily/" ++ stock ++ "/?start=" ++ start_date
                ++ "&end=" ++ end_date]).
  { intros. apply groq_retrieve_requested. }
  assert (Hl : forall stock start_date end_date,
             exists start_date' end_date',
               result (Llama.format_date start_date w) = Return start_date' /\
               result (Llama.format_date end_date w) = Return end_date' /\
               requested (trace (Llama.get_daily_tx stock start_date end_date w))
               = [base_url ++ "/v1/daily/" ++ stock ++ "/?start=" ++ start_date'
                  ++ "&end=" ++ end_date']).
  { intros stock s e.
    apply (llama_dated_request
             (fun a b => base_url ++ "/v1/daily/" ++ stock ++ "/?start=" ++ a ++ "&end=" ++ b)). }
  repeat split; [exact Hg | exact Hl | exact (Hg "BBCA" "2024-06-01" "2024-06-30") |].
  destruct (Hl "BBCA" "2024-06-01" "2024-06-30") as (s' & e' & Hs & He & ->).
  rewrite (format_date_first "2024-06-01" w (mk_date 2024 6 1) eq_refl) in Hs.
  rewrite (format_date_first "2024-06-30" w (mk_date 2024 6 30) eq_refl) in He.
  rewrite (date_text_iso w (mk_date 2024 6 1) eq_refl) in Hs by (right; cbn; lia).
  rewrite (date_text_iso w (mk_date 2024 6 30) eq_refl) in He by (right; cbn; lia).
  injection Hs as <-. injection He as <-. reflexivity.
Qed.

(** C6.  With [top_n] left out, [get_top_companies_by_tx_volume] does what
    it does for [top_n = 5]: it requests
    [/v1/most-traded/?start={start}&end={end}&n_stock=5]. *)
Theorem top_n_defaults_to_5 (json_dumps : pyval -> string) (w : env) (start_date end_date : string) :
  Groq.get_top_companies_by_tx_volume json_dumps start_date end_date None w
  = Groq.get_top_companies_by_tx_volume json_dumps start_date end_date (Some 5) w /\
  Llama.get_top_companies_by_tx_volume start_date end_date None w
  = Llama.get_top_companies_by_tx_volume start_date end_date (Some 5) w /\
  requested (trace (Groq.get_top_companies_by_tx_volume json_dumps start_date end_date None w))
  = [base_url ++ "/v1/most-traded/?start=" ++ start_date ++ "&end=" ++ end_date
     ++ "&n_stock=5"] /\
  exists start_date' end_date',
    result (Llama.format_date start_date w) = Return start_date' /\
    result (Llama.format_date end_date w) = Return end_date' /\
    requested (trace (Llama.get_top_companies_by_tx_volume start_date end_date None w))
    = [base_url ++ "/v1/most-traded/?start=" ++ start_date' ++ "&end=" ++ end_date'
       ++ "&n_stock=5"].
Proof.
  repeat split.
  - apply groq_retrieve_requested.
  - apply (llama_dated_request
             (fun a b => base_url ++ "/v1/most-traded/?start=" ++ a ++ "&end=" ++ b
                         ++ "&n_stock=5")).
Qed.

(** * The namespace of [groq_base.py] *)

Lemma last_char_app a c b dflt : last_char (a ++ String c b) dflt = last_char b c.
Proof.
  revert dflt. induction a as [| x a IH]; intros dflt; cbn [String.append last_char].
  - reflexivity.
  - apply IH.
Qed.

(** The report URL is never the QCC URL: they end differently. *)
Lemma report_url_not_qcc stock w :
  base_url ++ "/v1/company/report/" ++ stock ++ "/?sections=overview" <> qcc_url w.
Proof.
  intros H. apply (f_equal (fun s => last_char s "000")) in H.
  unfold qcc_url in H.
  replace (base_url ++ "/v1/company/report/" ++ stock ++ "/?sections=overview")
    with ((base_url ++ "/v1/company/report/" ++ stock) ++ "/?sections=overview") in H.
  - rewrite !last_char_app in H. discriminate H.
  - reflexivity.
Qed.

Section GroqModule.

Variable json_dumps : pyval -> string.

(** The namespace once the module body has run. *)
Lemma groq_globals :
  Groq.globals json_dumps
  = Some (<["tools" := OList [Groq.tool_overview_2nd json_dumps;
                              Groq.tool_top_companies json_dumps;
                              Groq.tool_daily_tx json_dumps]]>
         (<["get_daily_tx" := OTool (Groq.tool_daily_tx json_dumps)]>
         (<["get_top_companies_by_tx_volume" := OTool (Groq.tool_top_companies json_dumps)]>
         (<["get_company_overview" := OTool (Groq.tool_overview_2nd json_dumps)]>
         (<["get_company_overview" := OTool (Groq.tool_overview_1st json_dumps)]> ∅))))).
Proof.
  unfold Groq.globals, Groq.module_body.
  cbn [exec_module exec tool_name Groq.tool_overview_1st Groq.tool_overview_2nd
         Groq.tool_top_companies Groq.tool_daily_tx].
  unfold eval_names, eval_name.
  rewrite !lookup_insert. repeat (case_decide; try congruence).
Qed.

(** The first overview tool is none of the tools in the catalog. *)
Lemma first_not_in_catalog :
  ~ In (Groq.tool_overview_1st json_dumps)
       [Groq.tool_overview_2nd json_dumps; Groq.tool_top_companies json_dumps;
        Groq.tool_daily_tx json_dumps].
Proof.
  intros [H | [H | [H | []]]];
    apply (f_equal tool_description) in H; discriminate H.
Qed.

End GroqModule.

(** C7.  Running the module body of [groq_base.py] leaves the name
    [get_company_overview], and the first entry of [tools], bound to the
    second definition, whose one request goes to
    [/v1/company/report/{stock}/?sections=overview]; nothing in the
    namespace refers to the first definition, and no request goes to its
    QCC URL. *)
Theorem second_overview_definition_wins (json_dumps : pyval -> string) :
  exists g,
    Groq.globals json_dumps = Some g /\
    eval_name g "get_company_overview" = Some (Groq.tool_overview_2nd json_dumps) /\
    g !! "tools" = Some (OList [Groq.tool_overview_2nd json_dumps;
                                Groq.tool_top_companies json_dumps;
                                Groq.tool_daily_tx json_dumps]) /\
    (forall k o, g !! k = Some o ->
                 o <> OTool (Groq.tool_overview_1st json_dumps) /\
                 forall l, o = OList l -> ~ In (Groq.tool_overview_1st json_dumps) l) /\
    (forall stock w,
        exists m,
          call_stock (Groq.tool_overview_2nd json_dumps) stock = Some m /\
          requested (trace (m w))
          = [base_url ++ "/v1/company/report/" ++ stock ++ "/?sections=overview"] /\
          ~ In (qcc_url w) (requested (trace (m w)))).
Proof.
  eexists. split; [apply groq_globals |]. split; [| split; [| split]].
  - unfold eval_name. rewrite !lookup_insert. repeat (case_decide; try congruence).
  - now rewrite lookup_insert_eq.
  - intros k o Hk. rewrite lookup_insert in Hk. case_decide.
    { injection Hk as <-. split; [discriminate |].
      intros l [= <-]. apply first_not_in_catalog. }
    repeat (rewrite lookup_insert in Hk; case_decide;
            [ try congruence; injection Hk as <-; split;
              [ intros [= H']; apply (f_equal tool_description) in H'; discriminate H'
              | intros l H'; discriminate H' ]
            | ]).
    rewrite lookup_insert_ne, lookup_empty in Hk by assumption. discriminate Hk.
  - intros stock w. eexists. split; [reflexivity |].
    assert (Hr : requested (trace (Groq.get_company_overview_2nd json_dumps stock w))
                 = [base_url ++ "/v1/company/report/" ++ stock ++ "/?sections=overview"])
      by apply groq_retrieve_requested.
    split; [exact Hr |]. rewrite Hr. intros [H | []].
    exact (report_url_not_qcc stock w H).
Qed.

Lemma second_overview_definition_wins_witness :
  exists g,
    Groq.globals sample_dumps = Some g /\
    eval_name g "get_company_overview" = Some (Groq.tool_overview_2nd sample_dumps).
Proof.
  destruct (second_overview_definition_wins sample_dumps) as (g & Hg & Hn & _).
  exists g. split; assumption.
Defined.

(** * How much of a string the date patterns read *)

Lemma string_app_assoc (a b c : string) : (a ++ b) ++ c = a ++ (b ++ c).
Proof. induction a as [| x a IH]; cbn [String.append]; [reflexivity | now rewrite IH]. Qed.

Lemma string_app_nil_r (a : string) : a ++ "" = a.
Proof. induction a as [| x a IH]; cbn [String.append]; [reflexivity | now rewrite IH]. Qed.

Lemma string_app_length (a b : string) :
  String.length (a ++ b) = (String.length a + String.length b)%nat.
Proof. induction a as [| x a IH]; cbn [String.append String.length]; [reflexivity | now rewrite IH]. Qed.

Lemma one_char_sound p s txt rest :
  In (txt, rest) (one_char p s) -> s = txt ++ rest /\ String.length txt = 1%nat.
Proof.
  destruct s as [| c s']; cbn [one_char]; [intros [] |].
  destruct (p c); [| intros []].
  intros [[= <- <-] | []]. auto.
Qed.

(** A match of a pattern is a prefix of the text, of a length within the
    bounds of the pattern. *)
Lemma rmatch_sound r :
  forall s txt rest,
    In (txt, rest) (rmatch r s) ->
    s = txt ++ rest /\ (min_len r <= String.length txt <= max_len r)%nat.
Proof.
  induction r as [c | lo hi | | r1 IH1 r2 IH2 | r1 IH1 r2 IH2]; intros s txt rest Hin;
    cbn [rmatch min_len max_len] in *.
  - apply one_char_sound in Hin as [-> ->]. auto.
  - apply one_char_sound in Hin as [-> ->]. auto.
  - apply one_char_sound in Hin as [-> ->]. auto.
  - apply List.in_flat_map in Hin as ([t1 s1] & H1 & Hin).
    apply List.in_map_iff in Hin as ([t2 s2] & [= <- <-] & H2).
    cbn [fst snd] in *.
    apply IH1 in H1 as [-> L1]. apply IH2 in H2 as [-> L2].
    rewrite string_app_assoc, string_app_length. split; [reflexivity | lia].
  - apply List.in_app_or in Hin as [Hin | Hin].
    + apply IH1 in Hin as [-> L]. split; [reflexivity | lia].
    + apply IH2 in Hin as [-> L]. split; [reflexivity | lia].
Qed.

Lemma pmatch_sound ps :
  forall s g rest,
    In (g, rest) (pmatch ps s) ->
    exists txt, s = txt ++ rest /\
                (pieces_min ps <= String.length txt <= pieces_max ps)%nat.
Proof.
  induction ps as [| [k r | c] ps IH]; intros s g rest Hin;
    cbn [pmatch pieces_min pieces_max] in *.
  - destruct Hin as [[= <- <-] | []]. exists "". auto.
  - apply List.in_flat_map in Hin as ([t1 s1] & H1 & Hin).
    apply List.in_map_iff in Hin as ([g2 s2] & [= <- <-] & H2).
    cbn [fst snd] in *.
    apply rmatch_sound in H1 as [-> L1]. apply IH in H2 as (t2 & -> & L2).
    exists (t1 ++ t2). rewrite string_app_assoc, string_app_length.
    split; [reflexivity | lia].
  - destruct s as [| x s']; [destruct Hin |].
    destruct (Ascii.eqb x c); [| destruct Hin].
    apply IH in Hin as (t & -> & L). exists (String x t).
    cbn [String.append String.length]. split; [reflexivity | lia].
Qed.

Lemma hd_error_In {A} (l : list A) (x : A) : hd_error l = Some x -> In x l.
Proof. destruct l; cbn; [discriminate | intros [= ->]; now left]. Qed.

(** [strptime] succeeds only on a string whose length the format allows. *)
Lemma strptime_length s fmt ps d :
  pattern fmt = Some ps ->
  strptime_date s fmt = Return d ->
  (pieces_min ps <= String.length s <= pieces_max ps)%nat.
Proof.
  intros Hp H. unfold strptime_date in H. rewrite Hp in H.
  destruct (hd_error (pmatch ps s)) as [[g rest] |] eqn:Hh; [| discriminate H].
  destruct rest; [| discriminate H].
  apply hd_error_In, pmatch_sound in Hh as (txt & -> & L).
  now rewrite string_app_nil_r.
Qed.

Lemma strptime_not_returning {A} (o : outcome A) : (forall a, o <> Return a) -> raises o.
Proof. destruct o as [a | e]; intros H; [now destruct (H a) | now exists e]. Qed.

Lemma format_date_fallback_raises s w :
  raises (strptime_date s "%Y-%m-%d") -> raises (strptime_date s "%d/%m/%Y") ->
  Llama.format_date s w = fallback s w.
Proof. intros [e1 H1] [e2 H2]. now apply (format_date_fallback s w e1 e2). Qed.

(** X1.  Only a string of 8, 9 or 10 characters can be read as a date: a
    shorter one (the empty string too) and a longer one (a date followed by
    a time, or by a blank) make [format_date] log its warning and return
    today's date. *)
Theorem format_date_length (s : string) (w : env) :
  (String.length s < 8 \/ 10 < String.length s)%nat ->
  Llama.format_date s w = fallback s w.
Proof.
  intros Hlen. apply format_date_fallback_raises; apply strptime_not_returning;
    intros d Hd.
  - apply (strptime_length _ _ _ _ pattern_ymd) in Hd. cbn in Hd. lia.
  - apply (strptime_length _ _ _ _ pattern_dmy) in Hd. cbn in Hd. lia.
Qed.

Lemma format_date_length_witness :
  Llama.format_date "" example_env
  = ([EvLog WARNING "Invalid date format: . Using today's date."], Return "2026-11-03") /\
  Llama.format_date "2024-06-01T00:00:00" example_env
  = ([EvLog WARNING "Invalid date format: 2024-06-01T00:00:00. Using today's date."],
     Return "2026-11-03").
Proof.
  split.
  - apply (format_date_length "" example_env). left. cbn. lia.
  - apply (format_date_length "2024-06-01T00:00:00" example_env). right. cbn. lia.
Defined.

(** * The date patterns on two-digit fields *)

(** Four digits are the one match of [%Y]. *)
Lemma pmatch_Y_all a b c d ps rest :
  is_digit a = true -> is_digit b = true -> is_digit c = true -> is_digit d = true ->
  pmatch (Group "Y" re_Y :: ps) (String a (String b (String c (String d rest))))
  = map (fun r => (("Y"%char, String a (String b (String c (String d "")))) :: fst r, snd r))
        (pmatch ps rest).
Proof.
  intros Ha Hb Hc Hd. cbn [pmatch]. rewrite rmatch_Y by assumption.
  cbn [flat_map fst snd]. apply app_nil_r.
Qed.

(** A group followed by a literal character: the matches of the group after
    which that character comes. *)
Lemma pmatch_group_lit k r c ps s :
  pmatch (Group k r :: Lit c :: ps) s
  = flat_map (fun m => map (fun rest => ((k, fst m) :: fst rest, snd rest)) (pmatch ps (snd m)))
             (after_sep c (rmatch r s)).
Proof.
  cbn [pmatch]. induction (rmatch r s) as [| [txt [| x s']] l IH];
    cbn [flat_map after_sep fst snd map app]; [reflexivity | exact IH |].
  destruct (Ascii.eqb x c); cbn [flat_map fst snd map app]; now rewrite IH.
Qed.

(** A group at the end of the pattern. *)
Lemma full_match_group_end k r s :
  full_match [Group k r] s = option_map (fun txt => [(k, txt)]) (whole (rmatch r s)).
Proof.
  unfold full_match, first_full, whole. cbn [pmatch].
  destruct (rmatch r s) as [| [txt [| x s']] l]; reflexivity.
Qed.

Lemma full_match_push kv l :
  first_full (map (fun r : groupdict * string => (kv :: fst r, snd r)) l)
  = option_map (cons kv) (first_full l).
Proof. destruct l as [| [g [| x s']] l]; reflexivity. Qed.

(** Two digits and a separator: [%m] reads both digits when they are a
    month, and nothing matches otherwise; likewise [%d]. *)
Lemma month_then_dash m rest :
  0 <= m < 100 ->
  after_sep "-" (rmatch re_m (pad2 m ++ String "-" rest))
  = if (1 <=? m) && (m <=? 12) then [(pad2 m, rest)] else [].
Proof. intros H. revert rest. range_cases m 0 100%nat; reflexivity. Qed.

Lemma month_then_slash m rest :
  0 <= m < 100 ->
  after_sep "/" (rmatch re_m (pad2 m ++ String "/" rest))
  = if (1 <=? m) && (m <=? 12) then [(pad2 m, rest)] else [].
Proof. intros H. revert rest. range_cases m 0 100%nat; reflexivity. Qed.

Lemma day_then_slash d rest :
  0 <= d < 100 ->
  after_sep "/" (rmatch re_d (pad2 d ++ String "/" rest))
  = if (1 <=? d) && (d <=? 31) then [(pad2 d, rest)] else [].
Proof. intros H. revert rest. range_cases d 0 100%nat; reflexivity. Qed.

Lemma day_at_end d :
  0 <= d < 100 ->
  whole (rmatch re_d (pad2 d)) = if (1 <=? d) && (d <=? 31) then Some (pad2 d) else None.
Proof. intros H. range_cases d 0 100%nat; reflexivity. Qed.

(** * [strptime] on strings of the two canonical shapes *)

Lemma strptime_no_full_match s fmt ps :
  pattern fmt = Some ps -> full_match ps s = None -> raises (strptime_date s fmt).
Proof.
  intros Hp Hf. unfold strptime_date, full_match, first_full in *. rewrite Hp.
  destruct (hd_error (pmatch ps s)) as [[g [| x rest]] |];
    try discriminate Hf; eexists; reflexivity.
Qed.

Lemma strptime_full_match s fmt ps g :
  pattern fmt = Some ps -> full_match ps s = Some g ->
  strptime_date s fmt
  = match group_int "Y" 1900 g, group_int "m" 1 g, group_int "d" 1 g with
    | Some y, Some m, Some d =>
        if valid_date (mk_date y m d) then Return (mk_date y m d)
        else value_error "date value out of range"
    | _, _, _ => value_error "invalid literal for int()"
    end.
Proof.
  intros Hp Hf. unfold strptime_date, full_match, first_full in *. rewrite Hp.
  destruct (hd_error (pmatch ps s)) as [[g' [| x rest]] |]; try discriminate Hf.
  now injection Hf as ->.
Qed.

Lemma num2_bounds a b : is_digit a = true -> is_digit b = true -> 0 <= num2 a b < 100.
Proof. intros Ha Hb. apply is_digit_val in Ha, Hb. unfold num2. lia. Qed.

Lemma num4_bounds a b c d :
  is_digit a = true -> is_digit b = true -> is_digit c = true -> is_digit d = true ->
  0 <= num4 a b c d <= 9999.
Proof. intros Ha Hb Hc Hd. apply is_digit_val in Ha, Hb, Hc, Hd. unfold num4. lia. Qed.

Section Shapes.

Variables y3 y2 y1 y0 m1 m0 d1 d0 : ascii.
Hypothesis (Hy3 : is_digit y3 = true) (Hy2 : is_digit y2 = true)
           (Hy1 : is_digit y1 = true) (Hy0 : is_digit y0 = true)
           (Hm1 : is_digit m1 = true) (Hm0 : is_digit m0 = true)
           (Hd1 : is_digit d1 = true) (Hd0 : is_digit d0 = true).

Lemma full_match_ymd_shape :
  full_match ps_ymd
    (String y3 (String y2 (String y1 (String y0 (String "-"
       (String m1 (String m0 (String "-" (String d1 (String d0 ""))))))))))
  = if ((1 <=? num2 m1 m0) && (num2 m1 m0 <=? 12)) && ((1 <=? num2 d1 d0) && (num2 d1 d0 <=? 31))
    then Some [("Y"%char, pad4 (num4 y3 y2 y1 y0)); ("m"%char, pad2 (num2 m1 m0));
               ("d"%char, pad2 (num2 d1 d0))]
    else None.
Proof.
  rewrite pad4_num4, !pad2_num2 by assumption.
  unfold full_match at 1, ps_ymd. rewrite pmatch_Y_all by assumption.
  rewrite full_match_push, pmatch_lit.
  change (String m1 (String m0 (String "-" (String d1 (String d0 "")))))
    with (String m1 (String m0 "") ++ String "-" (String d1 (String d0 ""))).
  rewrite <- (pad2_num2 m1 m0) by assumption.
  rewrite pmatch_group_lit, month_then_dash by (apply num2_bounds; assumption).
  destruct ((1 <=? num2 m1 m0) && (num2 m1 m0 <=? 12)); [| reflexivity].
  cbn [flat_map fst snd andb]. rewrite app_nil_r, full_match_push.
  change (first_full (pmatch [Group "d" re_d] (String d1 (String d0 ""))))
    with (full_match [Group "d" re_d] (String d1 (String d0 ""))).
  rewrite full_match_group_end, <- (pad2_num2 d1 d0) by assumption.
  rewrite day_at_end by (apply num2_bounds; assumption).
  rewrite !pad2_num2 by assumption.
  destruct ((1 <=? num2 d1 d0) && (num2 d1 d0 <=? 31)); reflexivity.
Qed.

Lemma full_match_dmy_shape :
  full_match ps_dmy
    (String d1 (String d0 (String "/" (String m1 (String m0 (String "/"
       (String y3 (String y2 (String y1 (String y0 ""))))))))))
  = if ((1 <=? num2 d1 d0) && (num2 d1 d0 <=? 31)) && ((1 <=? num2 m1 m0) && (num2 m1 m0 <=? 12))
    then Some [("d"%char, pad2 (num2 d1 d0)); ("m"%char, pad2 (num2 m1 m0));
               ("Y"%char, pad4 (num4 y3 y2 y1 y0))]
    else None.
Proof.
  rewrite pad4_num4, !pad2_num2 by assumption.
  unfold full_match at 1, ps_dmy.
  change (String d1 (String d0 (String "/" (String m1 (String m0 (String "/"
            (String y3 (String y2 (String y1 (String y0 ""))))))))))
    with (String d1 (String d0 "") ++ String "/" (String m1 (String m0 (String "/"
            (String y3 (String y2 (String y1 (String y0 "")))))))).
  rewrite <- (pad2_num2 d1 d0) by assumption.
  rewrite pmatch_group_lit, day_then_slash by (apply num2_bounds; assumption).
  destruct ((1 <=? num2 d1 d0) && (num2 d1 d0 <=? 31)); [| reflexivity].
  cbn [flat_map fst snd andb]. rewrite app_nil_r, full_match_push.
  change (String m1 (String m0 (String "/" (String y3 (String y2 (String y1 (String y0 "")))))))
    with (String m1 (String m0 "") ++ String "/" (String y3 (String y2 (String y1 (String y0 ""))))).
  rewrite <- (pad2_num2 m1 m0) by assumption.
  rewrite pmatch_group_lit, month_then_slash by (apply num2_bounds; assumption).
  destruct ((1 <=? num2 m1 m0) && (num2 m1 m0 <=? 12)); [| reflexivity].
  cbn [flat_map fst snd andb]. rewrite app_nil_r, full_match_push.
  rewrite pmatch_Y_all by assumption. cbn [pmatch map first_full hd_error fst snd option_map].
  rewrite !pad2_num2 by assumption. reflexivity.
Qed.

End Shapes.

Lemma strptime_shape_invalid s fmt ps y m d g :
  pattern fmt = Some ps ->
  0 <= y <= 9999 -> 0 <= m < 100 -> 0 <= d < 100 ->
  full_match ps s
  = (if ((1 <=? m) && (m <=? 12)) && ((1 <=? d) && (d <=? 31)) then Some g else None) ->
  group_int "Y" 1900 g = Some y -> group_int "m" 1 g = Some m -> group_int "d" 1 g = Some d ->
  valid_date (mk_date y m d) = false ->
  raises (strptime_date s fmt).
Proof.
  intros Hp Hy Hm Hd Hf Gy Gm Gd Hv.
  destruct (((1 <=? m) && (m <=? 12)) && ((1 <=? d) && (d <=? 31))).
  - rewrite (strptime_full_match s fmt ps g Hp Hf), Gy, Gm, Gd, Hv. eexists; reflexivity.
  - now apply (strptime_no_full_match s fmt ps).
Qed.

Lemma group_ints_of y m d :
  0 <= y <= 9999 -> 0 <= m < 100 -> 0 <= d < 100 ->
  forall g,
    g = [("Y"%char, pad4 y); ("m"%char, pad2 m); ("d"%char, pad2 d)] \/
    g = [("d"%char, pad2 d); ("m"%char, pad2 m); ("Y"%char, pad4 y)] ->
    group_int "Y" 1900 g = Some y /\ group_int "m" 1 g = Some m /\ group_int "d" 1 g = Some d.
Proof.
  intros Hy Hm Hd g [-> | ->]; unfold group_int; cbn [group Ascii.eqb Bool.eqb];
    rewrite py_int_pad4, !py_int_pad2 by lia; auto.
Qed.

(** No match of [%d/%m/%Y] unless a slash is the second or the third
    character. *)
Lemma after_sep_nil c l :
  (forall txt x rest, In (txt, String x rest) l -> x <> c) -> after_sep c l = [].
Proof.
  induction l as [| [txt [| x rest]] l IH]; intros H; cbn [after_sep]; [reflexivity | |].
  - apply IH. intros. eapply H. right. eassumption.
  - destruct (Ascii.eqb_spec x c) as [-> | _].
    + exfalso. eapply H; [left; reflexivity | reflexivity].
    + apply IH. intros. eapply H. right. eassumption.
Qed.

Lemma pmatch_dmy_needs_slash a b c r :
  b <> "/"%char -> c <> "/"%char ->
  pmatch ps_dmy (String a (String b (String c r))) = [].
Proof.
  intros Hb Hc. unfold ps_dmy. rewrite pmatch_group_lit, after_sep_nil; [reflexivity |].
  intros txt x rest Hin. apply rmatch_sound in Hin as [Heq Hlen].
  cbn in Hlen.
  destruct txt as [| t1 [| t2 [| t3 txt]]]; cbn [String.length] in Hlen; try lia;
    cbn [String.append] in Heq; congruence.
Qed.

Lemma strptime_dmy_needs_slash a b c r :
  is_digit b = true -> is_digit c = true ->
  raises (strptime_date (String a (String b (String c r))) "%d/%m/%Y").
Proof.
  intros Hb Hc. unfold strptime_date. rewrite pattern_dmy, pmatch_dmy_needs_slash.
  - eexists; reflexivity.
  - intros ->. discriminate Hb.
  - intros ->. discriminate Hc.
Qed.

Lemma strptime_ymd_needs_digits a b c r :
  is_digit c = false ->
  raises (strptime_date (String a (String b (String c r))) "%Y-%m-%d").
Proof.
  intros Hc. unfold strptime_date. rewrite pattern_ymd. unfold ps_ymd.
  cbn [pmatch]. rewrite rmatch_Y_short by assumption. eexists; reflexivity.
Qed.

Lemma is_iso_shape_inv s :
  is_iso_shape s = true ->
  exists y3 y2 y1 y0 m1 m0 d1 d0,
    s = String y3 (String y2 (String y1 (String y0 (String "-"
          (String m1 (String m0 (String "-" (String d1 (String d0 ""))))))))) /\
    is_digit y3 = true /\ is_digit y2 = true /\ is_digit y1 = true /\ is_digit y0 = true /\
    is_digit m1 = true /\ is_digit m0 = true /\ is_digit d1 = true /\ is_digit d0 = true.
Proof.
  destruct s as [| y3 [| y2 [| y1 [| y0 [| h1 [| m1 [| m0 [| h2 [| d1 [| d0 [| ? ?]]]]]]]]]]];
    try discriminate.
  cbn [is_iso_shape]. intros H.
  do 9 (apply andb_prop in H; destruct H as [H ?]).
  repeat match goal with
         | E : Ascii.eqb _ _ = true |- _ => apply Ascii.eqb_eq in E; subst
         end.
  do 8 eexists. repeat split; assumption.
Qed.

Lemma is_dmy_shape_inv s :
  is_dmy_shape s = true ->
  exists y3 y2 y1 y0 m1 m0 d1 d0,
    s = String d1 (String d0 (String "/" (String m1 (String m0 (String "/"
          (String y3 (String y2 (String y1 (String y0 ""))))))))) /\
    is_digit y3 = true /\ is_digit y2 = true /\ is_digit y1 = true /\ is_digit y0 = true /\
    is_digit m1 = true /\ is_digit m0 = true /\ is_digit d1 = true /\ is_digit d0 = true.
Proof.
  destruct s as [| d1 [| d0 [| h1 [| m1 [| m0 [| h2 [| y3 [| y2 [| y1 [| y0 [| ? ?]]]]]]]]]]];
    try discriminate.
  cbn [is_dmy_shape]. intros H.
  do 9 (apply andb_prop in H; destruct H as [H ?]).
  repeat match goal with
         | E : Ascii.eqb _ _ = true |- _ => apply Ascii.eqb_eq in E; subst
         end.
  do 8 eexists. repeat split; assumption.
Qed.

(** Below 1000 the year as it is has fewer than four characters. *)
Lemma str_int_short y : 1 <= y < 1000 -> (String.length (str_int y) < 4)%nat.
Proof.
  intros H.
  assert (Hall : forallb (fun i => Nat.ltb (String.length (str_int (1 + Z.of_nat i))) 4)
                   (seq 0 999) = true) by (vm_compute; reflexivity).
  rewrite forallb_forall in Hall. specialize (Hall (Z.to_nat (y - 1))).
  replace (1 + Z.of_nat (Z.to_nat (y - 1))) with y in Hall by lia.
  apply Nat.ltb_lt, Hall, in_seq. lia.
Qed.

(** Where the year is not written in four digits, the date [strftime]
    writes has fewer than the ten characters of the ISO form. *)
Lemma date_text_short w d :
  valid_date d = true -> ~ four_digit_year w d ->
  (String.length (date_text w d) < 10)%nat.
Proof.
  intros Hv Hf. destruct (valid_date_bounds d Hv) as (Hy & _).
  unfold four_digit_year in Hf.
  unfold date_text. cbn [strftime_text]. unfold year_text.
  destruct (fills_year w); [exfalso; apply Hf; now left |].
  assert (Hs : (String.length (str_int (year d)) < 4)%nat) by (apply str_int_short; lia).
  unfold pad2. cbn [String.append]. rewrite string_app_length.
  cbn [String.length String.append]. lia.
Qed.

(** X2.  A string of the shape [dddd-dd-dd] whose numbers are a calendar
    date comes back as [strftime] writes that date: unchanged where the
    year is written in four digits, and with the zeros of the year gone,
    so shorter, where it is not.  When the numbers are no calendar date (a
    thirtieth of February, a month 13, a year 0000) [format_date] logs its
    warning and returns today's date instead. *)
Theorem format_date_iso_shape (s : string) (w : env) :
  is_iso_shape s = true ->
  Llama.format_date s w
  = (if valid_date (date_of_iso s)
     then ([], Return (date_text w (date_of_iso s)))
     else fallback s w) /\
  (valid_date (date_of_iso s) = true -> four_digit_year w (date_of_iso s) ->
   Llama.format_date s w = ([], Return s)) /\
  (valid_date (date_of_iso s) = true -> ~ four_digit_year w (date_of_iso s) ->
   (String.length (date_text w (date_of_iso s)) < String.length s)%nat).
Proof.
  intros Hs.
  destruct (is_iso_shape_inv s Hs)
    as (y3 & y2 & y1 & y0 & m1 & m0 & d1 & d0 & -> & Hy3 & Hy2 & Hy1 & Hy0 & Hm1 & Hm0 & Hd1 & Hd0).
  cbn [date_of_iso].
  pose proof (num4_bounds _ _ _ _ Hy3 Hy2 Hy1 Hy0) as By.
  pose proof (num2_bounds _ _ Hm1 Hm0) as Bm.
  pose proof (num2_bounds _ _ Hd1 Hd0) as Bd.
  assert (Hiso : iso_format (mk_date (num4 y3 y2 y1 y0) (num2 m1 m0) (num2 d1 d0))
                 = String y3 (String y2 (String y1 (String y0 (String "-"
                     (String m1 (String m0 (String "-" (String d1 (String d0 ""))))))))))
    by (unfold iso_format; cbn [year month day];
        now rewrite pad4_num4, !pad2_num2 by assumption).
  destruct (valid_date (mk_date (num4 y3 y2 y1 y0) (num2 m1 m0) (num2 d1 d0))) eqn:Hv.
  - assert (Hret : Llama.format_date
                     (String y3 (String y2 (String y1 (String y0 (String "-"
                        (String m1 (String m0 (String "-" (String d1 (String d0 "")))))))))) w
                   = ([], Return (date_text w (mk_date (num4 y3 y2 y1 y0) (num2 m1 m0)
                                                        (num2 d1 d0))))).
    { rewrite <- Hiso. now apply format_date_iso. }
    split; [exact Hret |]. split.
    + intros _ Hf. rewrite Hret, (date_text_iso w _ Hv Hf), Hiso. reflexivity.
    + intros _ Hf. apply (date_text_short w _ Hv Hf).
  - split; [| split; discriminate].
    apply format_date_fallback_raises.
    + destruct (group_ints_of _ _ _ By Bm Bd _ (or_introl eq_refl)) as (Gy & Gm & Gd).
      eapply (strptime_shape_invalid _ _ _ _ _ _ _ pattern_ymd By Bm Bd); try eassumption.
      now apply full_match_ymd_shape.
    + now apply strptime_dmy_needs_slash.
Qed.

Lemma format_date_iso_shape_witness :
  Llama.format_date "2024-02-29" example_env = ([], Return "2024-02-29") /\
  Llama.format_date "2023-02-29" example_env
  = ([EvLog WARNING "Invalid date format: 2023-02-29. Using today's date."],
     Return "2026-11-03") /\
  Llama.format_date "0999-06-01" env_glibc = ([], Return "999-06-01").
Proof.
  split; [| split].
  - apply (format_date_iso_shape "2024-02-29" example_env); [reflexivity .. | now left].
  - apply (format_date_iso_shape "2023-02-29" example_env). reflexivity.
  - apply (format_date_iso_shape "0999-06-01" env_glibc). reflexivity.
Defined.

(** X3.  A string of the shape [dd/dd/dddd] whose numbers are a calendar
    date, day first, comes back as [strftime] writes that date: in the form
    [YYYY-MM-DD] where the year is written in four digits.  When the
    numbers are no calendar date (a month 13, as in an American 06/13/2024)
    [format_date] logs its warning and returns today's date instead. *)
Theorem format_date_dmy_shape (s : string) (w : env) :
  is_dmy_shape s = true ->
  Llama.format_date s w
  = (if valid_date (date_of_dmy s)
     then ([], Return (date_text w (date_of_dmy s)))
     else fallback s w) /\
  (valid_date (date_of_dmy s) = true -> four_digit_year w (date_of_dmy s) ->
   Llama.format_date s w = ([], Return (iso_format (date_of_dmy s)))) /\
  (valid_date (date_of_dmy s) = true -> ~ four_digit_year w (date_of_dmy s) ->
   (String.length (date_text w (date_of_dmy s)) < 10)%nat).
Proof.
  intros Hs.
  destruct (is_dmy_shape_inv s Hs)
    as (y3 & y2 & y1 & y0 & m1 & m0 & d1 & d0 & -> & Hy3 & Hy2 & Hy1 & Hy0 & Hm1 & Hm0 & Hd1 & Hd0).
  cbn [date_of_dmy].
  pose proof (num4_bounds _ _ _ _ Hy3 Hy2 Hy1 Hy0) as By.
  pose proof (num2_bounds _ _ Hm1 Hm0) as Bm.
  pose proof (num2_bounds _ _ Hd1 Hd0) as Bd.
  assert (Hdmy : dmy_format (mk_date (num4 y3 y2 y1 y0) (num2 m1 m0) (num2 d1 d0))
                 = String d1 (String d0 (String "/" (String m1 (String m0 (String "/"
                     (String y3 (String y2 (String y1 (String y0 ""))))))))))
    by (unfold dmy_format; cbn [year month day];
        now rewrite pad4_num4, !pad2_num2 by assumption).
  destruct (valid_date (mk_date (num4 y3 y2 y1 y0) (num2 m1 m0) (num2 d1 d0))) eqn:Hv.
  - assert (Hret : Llama.format_date
                     (String d1 (String d0 (String "/" (String m1 (String m0 (String "/"
                        (String y3 (String y2 (String y1 (String y0 "")))))))))) w
                   = ([], Return (date_text w (mk_date (num4 y3 y2 y1 y0) (num2 m1 m0)
                                                        (num2 d1 d0))))).
    { rewrite <- Hdmy.
      eapply format_date_second; [apply strptime_ymd_dmy | now apply strptime_dmy_dmy]. }
    split; [exact Hret |]. split.
    + intros _ Hf. now rewrite Hret, (date_text_iso w _ Hv Hf).
    + intros _ Hf. apply (date_text_short w _ Hv Hf).
  - split; [| split; discriminate].
    apply format_date_fallback_raises.
    + now apply strptime_ymd_needs_digits.
    + destruct (group_ints_of _ _ _ By Bm Bd _ (or_intror eq_refl)) as (Gy & Gm & Gd).
      eapply (strptime_shape_invalid _ _ _ _ _ _ _ pattern_dmy By Bm Bd); try eassumption.
      rewrite full_match_dmy_shape by assumption.
      now rewrite andb_comm.
Qed.

Lemma format_date_dmy_shape_witness :
  Llama.format_date "13/06/2024" example_env = ([], Return "2024-06-13") /\
  Llama.format_date "06/13/2024" example_env
  = ([EvLog WARNING "Invalid date format: 06/13/2024. Using today's date."],
     Return "2026-11-03") /\
  Llama.format_date "01/01/0001" env_glibc = ([], Return "1-01-01").
Proof.
  split; [| split].
  - apply (format_date_dmy_shape "13/06/2024" example_env); [reflexivity .. | now left].
  - apply (format_date_dmy_shape "06/13/2024" example_env). reflexivity.
  - apply (format_date_dmy_shape "01/01/0001" env_glibc). reflexivity.
Defined.

(** * The spellings [strptime] accepts *)

Lemma month_text_match m s c rest :
  1 <= m <= 12 -> month_text m s -> c = "-"%char \/ c = "/"%char ->
  hd_error (rmatch re_m (s ++ String c rest)) = Some (s, String c rest) /\
  py_int s = Some m.
Proof.
  intros H [-> | ->] [-> | ->]; revert rest; range_cases m 1 12%nat;
    intros rest; split; reflexivity.
Qed.

Lemma day_text_match d s rest :
  1 <= d <= 31 -> day_text d s ->
  hd_error (rmatch re_d (s ++ String "/" rest)) = Some (s, String "/" rest) /\
  hd_error (rmatch re_d (s ++ "")) = Some (s, "") /\
  py_int s = Some d /\
  pmatch ps_ymd (s ++ String "/" rest) = [].
Proof.
  intros H [-> | [-> | [Hd ->]]]; revert rest.
  - range_cases d 1 31%nat; intros rest; repeat split; reflexivity.
  - range_cases d 1 31%nat; intros rest; repeat split; reflexivity.
  - revert Hd. range_cases d 1 31%nat; intros Hd rest; try lia; repeat split; reflexivity.
Qed.

(** X4.  [format_date] also takes a month and a day written without their
    leading zero, in either format, and a day below ten written with a
    blank for the zero: every such spelling of a calendar date comes back
    as [strftime] writes that date, which is the date written [YYYY-MM-DD]
    where the year is written in four digits, and no warning is logged. *)
Theorem format_date_lenient (d : date) (sm sd : string) (w : env) :
  valid_date d = true ->
  month_text (month d) sm ->
  day_text (day d) sd ->
  Llama.format_date (pad4 (year d) ++ "-" ++ sm ++ "-" ++ sd) w = ([], Return (date_text w d)) /\
  Llama.format_date (sd ++ "/" ++ sm ++ "/" ++ pad4 (year d)) w = ([], Return (date_text w d)) /\
  (four_digit_year w d -> date_text w d = iso_format d).
Proof.
  intros Hv Hsm Hsd. destruct (valid_date_bounds d Hv) as (Hy & Hm & Hd).
  destruct (pad4_digits (year d)) as (a & b & c & e & Hp & Ha & Hb & Hc & He); [lia |].
  assert (Hpy : py_int (pad4 (year d)) = Some (year d)) by (apply py_int_pad4; lia).
  split; [| split; [| now apply date_text_iso]].
  - apply format_date_first. unfold strptime_date. rewrite pattern_ymd.
    destruct (month_text_match _ _ "-" (sd ++ "") Hm Hsm (or_introl eq_refl)) as [Mm Im].
    destruct (day_text_match _ _ "" Hd Hsd) as (_ & Md & Id & _).
    assert (Hh : hd_error (pmatch ps_ymd (pad4 (year d) ++ "-" ++ sm ++ "-" ++ sd))
                 = Some ([("Y"%char, pad4 (year d)); ("m"%char, sm); ("d"%char, sd)], "")).
    { unfold ps_ymd. rewrite Hp. cbn [String.append].
      eapply pmatch_group; [rewrite rmatch_Y by assumption; reflexivity |].
      rewrite pmatch_lit. rewrite <- (string_app_nil_r sd) at 1.
      eapply pmatch_group; [exact Mm |].
      rewrite pmatch_lit.
      eapply pmatch_group; [exact Md | reflexivity]. }
    rewrite Hh. unfold group_int. cbn [group Ascii.eqb Bool.eqb].
    rewrite Hpy, Im, Id. destruct d as [y m dd]. cbn [year month day] in *. now rewrite Hv.
  - destruct (month_text_match _ _ "/" (pad4 (year d)) Hm Hsm (or_intror eq_refl)) as [Mm Im].
    destruct (day_text_match _ _ (sm ++ "/" ++ pad4 (year d)) Hd Hsd) as (Md & _ & Id & Hno).
    eapply format_date_second.
    + unfold strptime_date. rewrite pattern_ymd.
      change (sd ++ "/" ++ sm ++ "/" ++ pad4 (year d))
        with (sd ++ String "/" (sm ++ "/" ++ pad4 (year d))).
      rewrite Hno. reflexivity.
    + unfold strptime_date. rewrite pattern_dmy.
      assert (Hh : hd_error (pmatch ps_dmy (sd ++ "/" ++ sm ++ "/" ++ pad4 (year d)))
                   = Some ([("d"%char, sd); ("m"%char, sm); ("Y"%char, pad4 (year d))], "")).
      { unfold ps_dmy.
        eapply pmatch_group; [exact Md |].
        rewrite pmatch_lit.
        eapply pmatch_group; [exact Mm |].
        rewrite pmatch_lit, Hp.
        eapply pmatch_group; [rewrite rmatch_Y by assumption; reflexivity | reflexivity]. }
      rewrite Hh. unfold group_int. cbn [group Ascii.eqb Bool.eqb].
      rewrite Hpy, Im, Id. destruct d as [y m dd]. cbn [year month day] in *. now rewrite Hv.
Qed.

Lemma format_date_lenient_witness :
  Llama.format_date "2024-6-1" example_env = ([], Return "2024-06-01") /\
  Llama.format_date "1/6/2024" example_env = ([], Return "2024-06-01") /\
  Llama.format_date "0999-6- 1" env_glibc = ([], Return "999-06-01").
Proof.
  destruct (format_date_lenient (mk_date 2024 6 1) "6" "1" example_env)
    as (H1 & H2 & _).
  - reflexivity.
  - right. reflexivity.
  - right. left. reflexivity.
  - destruct (format_date_lenient (mk_date 999 6 1) "6" " 1" env_glibc)
      as (H3 & _).
    + reflexivity.
    + right. reflexivity.
    + right. right. split; [cbn; lia | reflexivity].
    + split; [exact H1 | split; [exact H2 | exact H3]].
Defined.

(** * The tools that take dates *)

(** [format_date] returns what [strftime] writes of a calendar date, and
    makes no request. *)
Lemma format_date_canonical s w :
  valid_date (clock w) = true ->
  exists tr d, valid_date d = true /\
               Llama.format_date s w = (tr, Return (date_text w d)) /\
               requested tr = [].
Proof.
  intros Hc. destruct (format_date_returns s w Hc) as (tr & d & Hd & H).
  destruct (format_date_quiet s w) as (tr' & v & H' & Hq).
  rewrite H in H'. injection H' as <- <-.
  exists tr, d. auto.
Qed.

Lemma llama_dated_canonical (mk_url : string -> string -> string) s e w d1 d2 tr1 tr2 :
  Llama.format_date s w = (tr1, Return (date_text w d1)) -> requested tr1 = [] ->
  Llama.format_date e w = (tr2, Return (date_text w d2)) -> requested tr2 = [] ->
  requested (trace ((start_date <- Llama.format_date s;;
                     end_date <- Llama.format_date e;;
                     Llama.retrieve_from_endpoint (mk_url start_date end_date)) w))
  = [mk_url (date_text w d1) (date_text w d2)].
Proof.
  intros Hs Hq1 He Hq2.
  unfold bind at 1. rewrite Hs. unfold bind at 1. rewrite He.
  pose proof (llama_retrieve_requested w (mk_url (date_text w d1) (date_text w d2))) as Hr.
  destruct (Llama.retrieve_from_endpoint (mk_url (date_text w d1) (date_text w d2)) w)
    as [tr3 o].
  cbn [trace fst] in *. now rewrite !requested_app, Hq1, Hq2, Hr.
Qed.

(** X5.  Whatever strings the llama tools are given as dates, the dates in
    the request they make are calendar dates as [strftime] writes them: in
    the form [YYYY-MM-DD] where the year is written in four digits, as it
    is from the year 1000 on and on a platform that fills the year. *)
Theorem llama_requests_canonical_dates (w : env) (stock start_date end_date : string)
    (top_n : option Z) :
  valid_date (clock w) = true ->
  exists d1 d2,
    valid_date d1 = true /\ valid_date d2 = true /\
    result (Llama.format_date start_date w) = Return (date_text w d1) /\
    result (Llama.format_date end_date w) = Return (date_text w d2) /\
    requested (trace (Llama.get_daily_tx stock start_date end_date w))
    = [daily_url stock (date_text w d1) (date_text w d2)] /\
    requested (trace (Llama.get_top_companies_by_tx_volume start_date end_date top_n w))
    = [most_traded_url (date_text w d1) (date_text w d2) (default 5 top_n)] /\
    (four_digit_year w d1 -> is_iso_date (date_text w d1) = true) /\
    (four_digit_year w d2 -> is_iso_date (date_text w d2) = true).
Proof.
  intros Hc.
  destruct (format_date_canonical start_date w Hc) as (tr1 & d1 & V1 & Hs & Hq1).
  destruct (format_date_canonical end_date w Hc) as (tr2 & d2 & V2 & He & Hq2).
  exists d1, d2. rewrite Hs, He.
  split; [exact V1 |]. split; [exact V2 |]. split; [reflexivity |]. split; [reflexivity |].
  split; [| split; [| split]].
  - exact (llama_dated_canonical (daily_url stock) _ _ w d1 d2 tr1 tr2 Hs Hq1 He Hq2).
  - exact (llama_dated_canonical (fun a b => most_traded_url a b (default 5 top_n))
             _ _ w d1 d2 tr1 tr2 Hs Hq1 He Hq2).
  - intros Hf. rewrite (date_text_iso w d1 V1 Hf). now apply is_iso_date_iso_format.
  - intros Hf. rewrite (date_text_iso w d2 V2 Hf). now apply is_iso_date_iso_format.
Qed.

Lemma llama_requests_canonical_dates_witness :
  exists d1 d2,
    valid_date d1 = true /\ valid_date d2 = true /\
    result (Llama.format_date "last week" example_env) = Return (date_text example_env d1) /\
    result (Llama.format_date "1/6/2024" example_env) = Return (date_text example_env d2) /\
    requested (trace (Llama.get_daily_tx "BBCA" "last week" "1/6/2024" example_env))
    = [daily_url "BBCA" (date_text example_env d1) (date_text example_env d2)] /\
    requested (trace (Llama.get_top_companies_by_tx_volume "last week" "1/6/2024" None
                        example_env))
    = [most_traded_url (date_text example_env d1) (date_text example_env d2) 5] /\
    (four_digit_year example_env d1 -> is_iso_date (date_text example_env d1) = true) /\
    (four_digit_year example_env d2 -> is_iso_date (date_text example_env d2) = true).
Proof.
  apply (llama_requests_canonical_dates example_env "BBCA" "last week" "1/6/2024" None).
  reflexivity.
Defined.

(** X6.  To the llama tools a calendar date written [DD/MM/YYYY] is the
    same as that date written [YYYY-MM-DD]: the trace and the result of the
    call are the same. *)
Theorem llama_tools_accept_dmy (w : env) (stock : string) (d1 d2 : date) (top_n : option Z) :
  valid_date d1 = true -> valid_date d2 = true ->
  Llama.get_daily_tx stock (dmy_format d1) (dmy_format d2) w
  = Llama.get_daily_tx stock (iso_format d1) (iso_format d2) w /\
  Llama.get_top_companies_by_tx_volume (dmy_format d1) (dmy_format d2) top_n w
  = Llama.get_top_companies_by_tx_volume (iso_format d1) (iso_format d2) top_n w.
Proof.
  intros H1 H2.
  assert (E : forall d, valid_date d = true ->
                        Llama.format_date (dmy_format d) w = Llama.format_date (iso_format d) w).
  { intros d Hd.
    rewrite (format_date_first (iso_format d) w d) by now apply strptime_ymd_iso.
    eapply format_date_second; [apply strptime_ymd_dmy | now apply strptime_dmy_dmy]. }
  unfold Llama.get_daily_tx, Llama.get_top_companies_by_tx_volume, bind.
  now rewrite !(E d1 H1), !(E d2 H2).
Qed.

Lemma llama_tools_accept_dmy_witness :
  Llama.get_daily_tx "BBCA" "01/06/2024" "30/06/2024" example_env
  = Llama.get_daily_tx "BBCA" "2024-06-01" "2024-06-30" example_env.
Proof.
  apply (llama_tools_accept_dmy example_env "BBCA" (mk_date 2024 6 1) (mk_date 2024 6 30) None);
    reflexivity.
Defined.

(** X7.  When neither date given to [get_daily_tx] of the llama variant can
    be read, the call logs the two warnings and then asks for today's
    transactions: it is the request from today to today. *)
Theorem llama_unreadable_dates_ask_today (w : env) (stock start_date end_date : string) :
  raises (strptime_date start_date "%Y-%m-%d") -> raises (strptime_date start_date "%d/%m/%Y") ->
  raises (strptime_date end_date "%Y-%m-%d") -> raises (strptime_date end_date "%d/%m/%Y") ->
  let today_text := date_text w (clock w) in
  let answer := Llama.retrieve_from_endpoint (daily_url stock today_text today_text) w in
  Llama.get_daily_tx stock start_date end_date w
  = ((date_warning start_date :: date_warning end_date :: trace answer)%list, result answer).
Proof.
  intros S1 S2 E1 E2. cbn zeta.
  unfold Llama.get_daily_tx, bind.
  rewrite (format_date_fallback_raises start_date w S1 S2).
  rewrite (format_date_fallback_raises end_date w E1 E2).
  unfold fallback. fold (date_warning start_date) (date_warning end_date).
  change ("https://api.sectors.app/v1/daily/" ++ stock ++ "/?start=" ++ date_text w (clock w)
          ++ "&end=" ++ date_text w (clock w))
    with (daily_url stock (date_text w (clock w)) (date_text w (clock w))).
  destruct (Llama.retrieve_from_endpoint
              (daily_url stock (date_text w (clock w)) (date_text w (clock w))) w) as [tr o].
  reflexivity.
Qed.

Lemma llama_unreadable_dates_ask_today_witness :
  requested (trace (Llama.get_daily_tx "BBCA" "1 June" "30 June" example_env))
  = ["https://api.sectors.app/v1/daily/BBCA/?start=2026-11-03&end=2026-11-03"].
Proof.
  rewrite (llama_unreadable_dates_ask_today example_env "BBCA" "1 June" "30 June")
    by (eexists; reflexivity).
  reflexivity.
Defined.

(** * [format_date] applied to its own result *)

(** The year as it is, below 1000: one to three characters, digits after
    the first. *)
Lemma str_int_digits y :
  1 <= y < 1000 ->
  (exists a, str_int y = String a "") \/
  (exists a b, str_int y = String a (String b "") /\ is_digit b = true) \/
  (exists a b c, str_int y = String a (String b (String c "")) /\
                 is_digit b = true /\ is_digit c = true).
Proof.
  intros H.
  assert (Hall : forallb (fun i => match str_int (1 + Z.of_nat i) with
                                   | String a "" => true
                                   | String a (String b "") => is_digit b
                                   | String a (String b (String c "")) =>
                                       is_digit b && is_digit c
                                   | _ => false
                                   end)
                   (seq 0 999) = true) by (vm_compute; reflexivity).
  rewrite forallb_forall in Hall. specialize (Hall (Z.to_nat (y - 1))).
  replace (1 + Z.of_nat (Z.to_nat (y - 1))) with y in Hall by lia.
  assert (Hin : In (Z.to_nat (y - 1)) (seq 0 999)) by (apply in_seq; lia).
  specialize (Hall Hin).
  destruct (str_int y) as [| a [| b [| c [| x t]]]]; try discriminate Hall.
  - left. eauto.
  - right. left. eauto.
  - right. right. apply andb_prop in Hall as [Hb Hc]. eauto 6.
Qed.

(** [%Y] reads nothing when a dash comes within the first four characters. *)
Lemma rmatch_Y_dash t rest :
  (String.length t < 4)%nat -> rmatch re_Y (t ++ String "-" rest) = [].
Proof.
  intros Hl. assert (Hd : is_digit "-" = false) by reflexivity.
  destruct t as [| a [| b [| c [| x t]]]]; cbn [String.length] in Hl; try lia;
    cbn [String.append]; unfold re_Y; cbn [rmatch one_char].
  - now rewrite Hd.
  - destruct (is_digit a); [| reflexivity]. cbn [flat_map fst snd one_char map app].
    now rewrite Hd.
  - destruct (is_digit a); [| reflexivity]. cbn [flat_map fst snd one_char map app].
    destruct (is_digit b); [| reflexivity]. cbn [flat_map fst snd one_char map app].
    now rewrite Hd.
  - destruct (is_digit a); [| reflexivity]. cbn [flat_map fst snd one_char map app].
    destruct (is_digit b); [| reflexivity]. cbn [flat_map fst snd one_char map app].
    destruct (is_digit c); [| reflexivity]. cbn [flat_map fst snd one_char map app].
    now rewrite Hd.
Qed.

(** Where the year is not written in four digits, neither format reads
    what [strftime] writes. *)
Lemma date_text_unreadable w d :
  valid_date d = true -> ~ four_digit_year w d ->
  raises (strptime_date (date_text w d) "%Y-%m-%d") /\
  raises (strptime_date (date_text w d) "%d/%m/%Y").
Proof.
  intros Hv Hf. destruct (valid_date_bounds d Hv) as (Hy & Hm & Hd).
  unfold four_digit_year in Hf.
  unfold date_text. cbn [strftime_text]. unfold year_text.
  destruct (fills_year w); [exfalso; apply Hf; now left |].
  assert (Hm1 : is_digit (digit_chr (month d / 10 mod 10)) = true)
    by (apply is_digit_chr, Z.mod_pos_bound; lia).
  assert (Hdigit : forall x, is_digit x = true -> x <> "/"%char)
    by (intros x Hx ->; discriminate Hx).
  assert (Hl : (String.length (str_int (year d)) < 4)%nat) by (apply str_int_short; lia).
  split.
  - unfold strptime_date. rewrite pattern_ymd. unfold ps_ymd. cbn [pmatch].
    change (str_int (year d) ++ "-" ++ pad2 (month d) ++ "-" ++ pad2 (day d))
      with (str_int (year d) ++ String "-" (pad2 (month d) ++ "-" ++ pad2 (day d))).
    rewrite rmatch_Y_dash by exact Hl. eexists; reflexivity.
  - unfold strptime_date. rewrite pattern_dmy.
    match goal with
    | |- context [pmatch ps_dmy ?x] => assert (Hno : pmatch ps_dmy x = [])
    end.
    { destruct (str_int_digits (year d)) as [(a & ->) | [(a & b & -> & Hb)
                                                        | (a & b & c & -> & Hb & Hc)]];
        [lia | | |]; unfold pad2; cbn [String.append];
        apply pmatch_dmy_needs_slash; auto; discriminate. }
    rewrite Hno. eexists; reflexivity.
Qed.

Lemma iso_format_length d : String.length (iso_format d) = 10%nat.
Proof. reflexivity. Qed.

(** X22.  [format_date] always returns, and what it returns is what
    [strftime] writes of a calendar date.  Where the year of that date is
    written in four digits (from the year 1000 on, and everywhere on a
    platform that fills the year), the result is a calendar date in the form
    [YYYY-MM-DD] and [format_date] returns it unchanged and without a
    warning when applied to it again. *)
Theorem format_date_settles_four_digit_years (s : string) (w : env) :
  valid_date (clock w) = true ->
  exists tr d,
    valid_date d = true /\
    Llama.format_date s w = (tr, Return (date_text w d)) /\
    (four_digit_year w d ->
     is_iso_date (date_text w d) = true /\
     Llama.format_date (date_text w d) w = ([], Return (date_text w d))).
Proof.
  intros Hc. destruct (format_date_returns s w Hc) as (tr & d & Hd & H).
  exists tr, d. split; [exact Hd |]. split; [exact H |].
  intros Hf. split.
  - rewrite (date_text_iso w d Hd Hf). now apply is_iso_date_iso_format.
  - rewrite (date_text_iso w d Hd Hf) at 1. now apply format_date_iso.
Qed.

Lemma format_date_settles_four_digit_years_witness :
  exists tr d,
    valid_date d = true /\
    Llama.format_date "1/6/2024" env_glibc = (tr, Return (date_text env_glibc d)) /\
    (four_digit_year env_glibc d ->
     is_iso_date (date_text env_glibc d) = true /\
     Llama.format_date (date_text env_glibc d) env_glibc
     = ([], Return (date_text env_glibc d))).
Proof. apply (format_date_settles_four_digit_years "1/6/2024" env_glibc). reflexivity. Defined.

(** X23.  Where [strftime] does not fill the year, a calendar date of a year
    below 1000 comes back from [format_date] as a string that is no
    [YYYY-MM-DD] date and that neither format reads: applied to it again,
    [format_date] logs its warning and returns today's date. *)
Theorem format_date_short_year_unreadable (d : date) (w : env) :
  valid_date d = true -> ~ four_digit_year w d ->
  Llama.format_date (iso_format d) w = ([], Return (date_text w d)) /\
  Llama.format_date (dmy_format d) w = ([], Return (date_text w d)) /\
  is_iso_date (date_text w d) = false /\
  Llama.format_date (date_text w d) w = fallback (date_text w d) w.
Proof.
  intros Hv Hf. split; [now apply format_date_iso |]. split; [| split].
  - eapply format_date_second; [apply strptime_ymd_dmy | now apply strptime_dmy_dmy].
  - destruct (is_iso_date (date_text w d)) eqn:Hi; [| reflexivity].
    apply is_iso_date_inv in Hi as (d' & _ & Hi).
    pose proof (date_text_short w d Hv Hf) as Hl.
    rewrite Hi, iso_format_length in Hl. lia.
  - destruct (date_text_unreadable w d Hv Hf) as [H1 H2].
    now apply format_date_fallback_raises.
Qed.

Lemma format_date_short_year_unreadable_witness :
  Llama.format_date "0999-06-01" env_glibc = ([], Return "999-06-01") /\
  Llama.format_date "01/06/0999" env_glibc = ([], Return "999-06-01") /\
  is_iso_date "999-06-01" = false /\
  Llama.format_date "999-06-01" env_glibc
  = ([EvLog WARNING "Invalid date format: 999-06-01. Using today's date."],
     Return "2026-11-03").
Proof.
  apply (format_date_short_year_unreadable (mk_date 999 6 1) env_glibc).
  - reflexivity.
  - intros [H | H]; [discriminate H | cbn in H; lia].
Defined.

(** * What the tools send *)

Lemma str_int_negative n : n < 0 -> exists t, str_int n = String "-" t.
Proof.
  destruct n as [| p | p]; try lia. intros _.
  unfold str_int. cbn [Z.to_int NilZero.string_of_int]. eauto.
Qed.

(** X8.  [top_n] is not checked: whatever integer is given, zero or
    negative too, goes into the request in decimal ([n_stock=-3]). *)
Theorem top_n_is_not_checked (json_dumps : pyval -> string) (w : env)
    (start_date end_date : string) (n : Z) :
  requested (trace (Groq.get_top_companies_by_tx_volume json_dumps start_date end_date (Some n) w))
  = [most_traded_url start_date end_date n] /\
  (exists s e,
      result (Llama.format_date start_date w) = Return s /\
      result (Llama.format_date end_date w) = Return e /\
      requested (trace (Llama.get_top_companies_by_tx_volume start_date end_date (Some n) w))
      = [most_traded_url s e n]) /\
  (n < 0 -> exists t, most_traded_url start_date end_date n
                      = base_url ++ "/v1/most-traded/?start=" ++ start_date ++ "&end=" ++ end_date
                        ++ "&n_stock=-" ++ t).
Proof.
  split; [| split].
  - apply groq_retrieve_requested.
  - apply (llama_dated_request (fun a b => most_traded_url a b n)).
  - intros Hn. destruct (str_int_negative n Hn) as [t Ht]. exists t.
    unfold most_traded_url. now rewrite Ht.
Qed.

Lemma top_n_is_not_checked_witness :
  requested (trace (Groq.get_top_companies_by_tx_volume sample_dumps
                      "2024-06-01" "2024-06-30" (Some (-3)) example_env))
  = ["https://api.sectors.app/v1/most-traded/?start=2024-06-01&end=2024-06-30&n_stock=-3"] /\
  exists t, most_traded_url "2024-06-01" "2024-06-30" (-3)
            = base_url ++ "/v1/most-traded/?start=" ++ "2024-06-01" ++ "&end=" ++ "2024-06-30"
              ++ "&n_stock=-" ++ t.
Proof.
  destruct (top_n_is_not_checked sample_dumps example_env "2024-06-01" "2024-06-30" (-3))
    as (Hg & _ & Hneg).
  split; [exact Hg | apply Hneg; lia].
Defined.

(** X9.  The arguments go into the URL as they are, with nothing escaped,
    so the request does not tell where one argument ends and the next
    begins: in the groq variant, moving [&end=...] from the start date to
    the end date gives the same call. *)
Theorem groq_arguments_are_not_escaped (json_dumps : pyval -> string) (w : env)
    (stock a b c : string) :
  Groq.get_daily_tx json_dumps stock (a ++ "&end=" ++ b) c w
  = Groq.get_daily_tx json_dumps stock a (b ++ "&end=" ++ c) w.
Proof.
  unfold Groq.get_daily_tx. f_equal. do 3 f_equal.
  now rewrite !string_app_assoc.
Qed.

Lemma gets_app tr1 tr2 : gets (tr1 ++ tr2) = (gets tr1 ++ gets tr2)%list.
Proof.
  induction tr1 as [| [url h | lvl msg] tr1 IH]; cbn [gets app]; [reflexivity | |].
  - now rewrite IH.
  - exact IH.
Qed.

Lemma requested_nil_gets tr : requested tr = [] -> gets tr = [].
Proof.
  induction tr as [| [url h | lvl msg] tr IH]; cbn [requested gets]; [reflexivity | discriminate | exact IH].
Qed.

Lemma groq_retrieve_gets json_dumps w url :
  gets (trace (Groq.retrieve_from_endpoint json_dumps url w)) = [(url, auth_headers w)].
Proof.
  run_py. destruct (network w url _) as [r | e]; [| reflexivity].
  destruct (raise_for_status r w) as [tr [[] | e]] eqn:Hr;
    (assert (tr = []) as -> by
        (unfold raise_for_status in Hr; destruct (http_error_msg r); now inversion Hr));
    [destruct (resp_json r) |]; reflexivity.
Qed.

Lemma llama_retrieve_gets w url :
  gets (trace (Llama.retrieve_from_endpoint url w)) = [(url, auth_headers w)].
Proof.
  run_py. destruct (network w url _) as [r | e].
  - destruct (raise_for_status r w) as [tr [[] | e]] eqn:Hr;
      (assert (tr = []) as -> by
          (unfold raise_for_status in Hr; destruct (http_error_msg r); now inversion Hr)).
    + destruct (resp_json r) as [v | e]; [reflexivity |].
      cbn. destruct (issubclass (exn_cls e) RequestException); reflexivity.
    + cbn. destruct (issubclass (exn_cls e) RequestException); reflexivity.
  - destruct (issubclass (exn_cls e) RequestException); reflexivity.
Qed.

Lemma llama_dated_gets (mk_url : string -> string -> string) s e w :
  map snd (gets (trace ((start_date <- Llama.format_date s;;
                         end_date <- Llama.format_date e;;
                         Llama.retrieve_from_endpoint (mk_url start_date end_date)) w)))
  = [auth_headers w].
Proof.
  destruct (format_date_quiet s w) as (tr1 & s' & Hs & Hq1).
  destruct (format_date_quiet e w) as (tr2 & e' & He & Hq2).
  unfold bind at 1. rewrite Hs. unfold bind at 1. rewrite He.
  pose proof (llama_retrieve_gets w (mk_url s' e')) as Hr.
  destruct (Llama.retrieve_from_endpoint (mk_url s' e') w) as [tr3 o].
  cbn [trace fst] in *.
  now rewrite !gets_app, (requested_nil_gets _ Hq1), (requested_nil_gets _ Hq2), Hr.
Qed.

(** X10.  Every call of a tool, in either variant, makes exactly one
    request, and that request carries the one header [Authorization] with
    the value of [SECTORS_API_KEY], set or not; whether the request fails
    or not, there is no second one. *)
Theorem one_authorized_request (json_dumps : pyval -> string) (w : env)
    (stock start_date end_date : string) (top_n : option Z) :
  let sent (r : list event * outcome pyval) := map snd (gets (trace r)) in
  let auth := [[("Authorization", getenv w "SECTORS_API_KEY")]] in
  sent (Groq.get_company_overview_1st json_dumps stock w) = auth /\
  sent (Groq.get_company_overview_2nd json_dumps stock w) = auth /\
  sent (Groq.get_top_companies_by_tx_volume json_dumps start_date end_date top_n w) = auth /\
  sent (Groq.get_daily_tx json_dumps stock start_date end_date w) = auth /\
  sent (Llama.get_company_overview stock w) = auth /\
  sent (Llama.get_top_companies_by_tx_volume start_date end_date top_n w) = auth /\
  sent (Llama.get_daily_tx stock start_date end_date w) = auth.
Proof.
  cbn zeta. repeat split.
  - unfold Groq.get_company_overview_1st, bind at 1, ask.
    pose proof (groq_retrieve_gets json_dumps w
                  (str_opt (Groq.URL_API w) ++ "/get_qcc_tema_by_team")) as H.
    destruct (Groq.retrieve_from_endpoint json_dumps _ w) as [tr o].
    cbn [trace fst app] in *. now rewrite H.
  - unfold Groq.get_company_overview_2nd. now rewrite groq_retrieve_gets.
  - unfold Groq.get_top_companies_by_tx_volume. now rewrite groq_retrieve_gets.
  - unfold Groq.get_daily_tx. now rewrite groq_retrieve_gets.
  - unfold Llama.get_company_overview. now rewrite llama_retrieve_gets.
  - apply (llama_dated_gets
             (fun a b => "https://api.sectors.app/v1/most-traded/?start=" ++ a ++ "&end=" ++ b
                         ++ "&n_stock=" ++ str_int (default 5 top_n))).
  - apply (llama_dated_gets
             (fun a b => "https://api.sectors.app/v1/daily/" ++ stock ++ "/?start=" ++ a
                         ++ "&end=" ++ b)).
Qed.

(** * What [retrieve_from_endpoint] lets out and lets through *)

(** X11.  An exception that leaves [retrieve_from_endpoint] of the llama
    variant is no [RequestException], so never an [HTTPError] and never the
    [JSONDecodeError] of requests, and it comes from one of two places:
    [requests.get] raised it, or the status is no error and
    [response.json()] raised it (the [ValueError] for an integer of too many
    digits, a [RecursionError]).  The one request has been made and nothing
    is logged. *)
Theorem llama_retrieve_escapes (w : env) (url : string) (tr : list event) (e : exn) :
  Llama.retrieve_from_endpoint url w = (tr, Raise e) ->
  tr = [EvGet url (auth_headers w)] /\
  issubclass (exn_cls e) RequestException = false /\
  exn_cls e <> HTTPError /\ exn_cls e <> JSONDecodeError /\
  (network w url (auth_headers w) = Failed e \/
   exists r, network w url (auth_headers w) = Responded r /\
             ~ 400 <= status_code r < 600 /\
             resp_json r = inr e).
Proof.
  intros H.
  assert (Hcls : issubclass (exn_cls e) RequestException = false ->
                 exn_cls e <> HTTPError /\ exn_cls e <> JSONDecodeError).
  { intros Hc. split; intros Heq; rewrite Heq in Hc; discriminate Hc. }
  destruct (network w url (auth_headers w)) as [r | e'] eqn:Hn.
  - assert (Hs : ~ 400 <= status_code r < 600).
    { intros Hs. rewrite (llama_retrieve_error w url r Hn Hs) in H. discriminate H. }
    destruct (resp_json r) as [v | e'] eqn:Hj.
    + rewrite (llama_retrieve_body w url r v Hn Hs Hj) in H. discriminate H.
    + destruct (issubclass (exn_cls e') RequestException) eqn:Hc.
      * rewrite (llama_retrieve_undecodable w url r e' Hn Hs Hj Hc) in H. discriminate H.
      * rewrite (llama_retrieve_json_uncaught w url r e' Hn Hs Hj Hc) in H.
        injection H as <- <-. destruct (Hcls Hc) as [C1 C2].
        repeat split; try assumption. right. exists r. auto.
  - destruct (issubclass (exn_cls e') RequestException) eqn:Hc.
    + rewrite (llama_retrieve_failed w url e' Hn Hc) in H. discriminate H.
    + rewrite (llama_retrieve_uncaught w url e' Hn Hc) in H.
      injection H as <- <-. destruct (Hcls Hc) as [C1 C2].
      repeat split; try assumption. now left.
Qed.

Lemma llama_retrieve_escapes_witness :
  (network env_interrupted "https://api.sectors.app/v1/daily/BBCA/"
     (auth_headers env_interrupted)
   = Failed (mk_exn OtherException "KeyboardInterrupt") \/
   exists r, network env_interrupted "https://api.sectors.app/v1/daily/BBCA/"
               (auth_headers env_interrupted) = Responded r /\
             ~ 400 <= status_code r < 600 /\
             resp_json r = inr (mk_exn OtherException "KeyboardInterrupt")) /\
  issubclass ValueError RequestException = false.
Proof.
  destruct (llama_retrieve_escapes env_interrupted "https://api.sectors.app/v1/daily/BBCA/"
              [EvGet "https://api.sectors.app/v1/daily/BBCA/" [("Authorization", None)]]
              (mk_exn OtherException "KeyboardInterrupt") eq_refl) as (_ & _ & _ & _ & Hn).
  destruct (llama_retrieve_escapes env_long_int "https://api.sectors.app/v1/daily/BBCA/"
              [EvGet "https://api.sectors.app/v1/daily/BBCA/"
                 [("Authorization", Some "secret")]]
              (mk_exn ValueError
                 "Exceeds the limit (4300 digits) for integer string conversion: value has 5000 digits; use sys.set_int_max_str_digits() to increase the limit")
              eq_refl) as (_ & Hc & _).
  split; [exact Hn | exact Hc].
Defined.

(** X12.  A status is an error only from 400 to 599.  On any other status,
    a 1xx or a 3xx as well as a 2xx, a body that decodes is handed back as
    data: as it is by the llama variant, as its [json.dumps] text by the
    groq variant, with nothing logged. *)
Theorem other_statuses_pass_as_data
    (json_dumps : pyval -> string) (w : env) (url : string) (r : response) (v : pyval) :
  network w url (auth_headers w) = Responded r ->
  status_code r < 400 \/ 600 <= status_code r ->
  resp_json r = inl v ->
  Llama.retrieve_from_endpoint url w = ([EvGet url (auth_headers w)], Return v) /\
  Groq.retrieve_from_endpoint json_dumps url w
  = ([EvGet url (auth_headers w)], Return (PStr (json_dumps v))).
Proof.
  intros H Hs Hj. split.
  - apply (llama_retrieve_body w url r v); [assumption | lia | assumption].
  - apply (groq_retrieve_body json_dumps w url r v); [assumption | lia | assumption].
Qed.

Lemma other_statuses_pass_as_data_witness :
  Llama.retrieve_from_endpoint "https://api.sectors.app/v1/daily/BBCA/" env_300
  = ([EvGet "https://api.sectors.app/v1/daily/BBCA/" [("Authorization", None)]],
     Return (PList [])) /\
  Groq.retrieve_from_endpoint sample_dumps "https://api.sectors.app/v1/daily/BBCA/" env_300
  = ([EvGet "https://api.sectors.app/v1/daily/BBCA/" [("Authorization", None)]],
     Return (PStr "[]")).
Proof.
  apply (other_statuses_pass_as_data sample_dumps env_300
           "https://api.sectors.app/v1/daily/BBCA/"
           (mk_response 300 "Multiple Choices" "https://api.sectors.app/v1/daily/BBCA/"
              (inl (PList [])))
           (PList [])).
  - reflexivity.
  - left. cbn. lia.
  - reflexivity.
Defined.

(** X13.  When the status is no error but the body is not JSON, the groq
    variant raises the [JSONDecodeError] of [response.json()], and the
    llama variant logs it and returns [{"error": ...}] with the decoder's
    message. *)
Theorem undecodable_body
    (json_dumps : pyval -> string) (w : env) (url : string) (r : response) (msg : string) :
  network w url (auth_headers w) = Responded r ->
  status_code r < 400 \/ 600 <= status_code r ->
  resp_json r = inr (mk_exn JSONDecodeError msg) ->
  Groq.retrieve_from_endpoint json_dumps url w
  = ([EvGet url (auth_headers w)], Raise (mk_exn JSONDecodeError msg)) /\
  Llama.retrieve_from_endpoint url w
  = ([EvGet url (auth_headers w); error_record url (mk_exn JSONDecodeError msg)],
     Return (PDict [("error", PStr msg)])).
Proof.
  intros H Hs Hj. split.
  - apply (groq_retrieve_undecodable json_dumps w url r (mk_exn JSONDecodeError msg));
      [assumption | lia | assumption].
  - apply (llama_retrieve_undecodable w url r (mk_exn JSONDecodeError msg));
      [assumption | lia | assumption | reflexivity].
Qed.

Lemma undecodable_body_witness :
  result (Groq.retrieve_from_endpoint sample_dumps "https://api.sectors.app/" env_html)
  = Raise (mk_exn JSONDecodeError "Expecting value: line 1 column 1 (char 0)") /\
  result (Llama.retrieve_from_endpoint "https://api.sectors.app/" env_html)
  = Return (PDict [("error", PStr "Expecting value: line 1 column 1 (char 0)")]).
Proof.
  destruct (undecodable_body sample_dumps env_html "https://api.sectors.app/"
              (mk_response 200 "OK" "https://api.sectors.app/"
                 (inr (mk_exn JSONDecodeError "Expecting value: line 1 column 1 (char 0)")))
              "Expecting value: line 1 column 1 (char 0)") as [Hg Hl].
  - reflexivity.
  - left. cbn. lia.
  - reflexivity.
  - now rewrite Hg, Hl.
Defined.

(** X14.  What the llama variant returns does not tell a failed request from
    an answered one: after a failure it returns the very value it returns
    when the service answers 200 with the body [{"error": <message>}]. *)
Theorem llama_failure_looks_like_data (w : env) (url : string) (e : exn) :
  request_fails w url e ->
  result (Llama.retrieve_from_endpoint url w)
  = result (Llama.retrieve_from_endpoint url
              (answering w (PDict [("error", PStr (exn_str e))]))).
Proof.
  intros Hf.
  assert (Hl : Llama.retrieve_from_endpoint url w
               = ([EvGet url (auth_headers w); error_record url e],
                  Return (PDict [("error", PStr (exn_str e))]))).
  { destruct Hf as [[H Hc] | (r & H & Hs & ->)].
    - now apply llama_retrieve_failed.
    - now apply llama_retrieve_error. }
  rewrite Hl.
  rewrite (llama_retrieve_body (answering w (PDict [("error", PStr (exn_str e))])) url
             (mk_response 200 "OK" url (inl (PDict [("error", PStr (exn_str e))])))
             (PDict [("error", PStr (exn_str e))])).
  - reflexivity.
  - reflexivity.
  - cbn. lia.
  - reflexivity.
Qed.

Lemma llama_failure_looks_like_data_witness :
  result (Llama.retrieve_from_endpoint "https://api.sectors.app/v1/daily/BBCA/" env_down)
  = result (Llama.retrieve_from_endpoint "https://api.sectors.app/v1/daily/BBCA/"
              (answering env_down (PDict [("error", PStr "Max retries exceeded")]))).
Proof.
  apply (llama_failure_looks_like_data env_down "https://api.sectors.app/v1/daily/BBCA/"
           (mk_exn ConnectionError "Max retries exceeded")).
  left. split; reflexivity.
Defined.

(** X15.  An exception leaves [retrieve_from_endpoint] of the groq variant
    in three cases only: [requests.get] raised it; the status is from 400
    to 599 and it is the [HTTPError] of [raise_for_status]; the status is
    no error and [response.json()] raised it, the [JSONDecodeError] for a
    body that is not JSON or whatever else the decoder raises.  In each the
    one request has been made and nothing else has happened. *)
Theorem groq_retrieve_escapes
    (json_dumps : pyval -> string) (w : env) (url : string) (tr : list event) (e : exn) :
  Groq.retrieve_from_endpoint json_dumps url w = (tr, Raise e) ->
  tr = [EvGet url (auth_headers w)] /\
  (network w url (auth_headers w) = Failed e \/
   exists r, network w url (auth_headers w) = Responded r /\
             ((400 <= status_code r < 600 /\ e = mk_exn HTTPError (http_error_msg r)) \/
              (~ 400 <= status_code r < 600 /\ resp_json r = inr e))).
Proof.
  intros H.
  destruct (network w url (auth_headers w)) as [r | e'] eqn:Hn.
  - destruct (Z_le_dec 400 (status_code r)) as [H4 | H4];
      [destruct (Z_lt_dec (status_code r) 600) as [H6 | H6] |].
    + rewrite (groq_retrieve_error json_dumps w url r Hn) in H by lia.
      injection H as <- <-. split; [reflexivity |]. right. exists r. split; [reflexivity |].
      left. split; [lia | reflexivity].
    + destruct (resp_json r) as [v | e'] eqn:Hj.
      * rewrite (groq_retrieve_body json_dumps w url r v Hn) in H by (assumption || lia).
        discriminate H.
      * rewrite (groq_retrieve_undecodable json_dumps w url r e' Hn) in H
          by (assumption || lia).
        injection H as <- <-. split; [reflexivity |]. right. exists r. split; [reflexivity |].
        right. split; [lia | exact Hj].
    + destruct (resp_json r) as [v | e'] eqn:Hj.
      * rewrite (groq_retrieve_body json_dumps w url r v Hn) in H by (assumption || lia).
        discriminate H.
      * rewrite (groq_retrieve_undecodable json_dumps w url r e' Hn) in H
          by (assumption || lia).
        injection H as <- <-. split; [reflexivity |]. right. exists r. split; [reflexivity |].
        right. split; [lia | exact Hj].
  - rewrite (groq_retrieve_failed json_dumps w url e' Hn) in H.
    injection H as <- <-. auto.
Qed.

Lemma groq_retrieve_escapes_witness :
  network env_down "https://api.sectors.app/v1/daily/BBCA/" (auth_headers env_down)
  = Failed (mk_exn ConnectionError "Max retries exceeded") \/
  exists r, network env_down "https://api.sectors.app/v1/daily/BBCA/" (auth_headers env_down)
            = Responded r /\
            ((400 <= status_code r < 600 /\
              mk_exn ConnectionError "Max retries exceeded" = mk_exn HTTPError (http_error_msg r)) \/
             (~ 400 <= status_code r < 600 /\
              resp_json r = inr (mk_exn ConnectionError "Max retries exceeded"))).
Proof.
  apply (groq_retrieve_escapes sample_dumps env_down "https://api.sectors.app/v1/daily/BBCA/"
           [EvGet "https://api.sectors.app/v1/daily/BBCA/" [("Authorization", None)]]
           (mk_exn ConnectionError "Max retries exceeded")).
  reflexivity.
Defined.

(** * The interactive loop of [groq_base.py] *)

Lemma invoked_app tr1 tr2 : invoked (tr1 ++ tr2) = (invoked tr1 ++ invoked tr2)%list.
Proof. induction tr1 as [| [] tr1 IH]; cbn [invoked app]; now rewrite ?IH. Qed.

Lemma lines_read_app tr1 tr2 :
  lines_read (tr1 ++ tr2) = (lines_read tr1 ++ lines_read tr2)%list.
Proof. induction tr1 as [| [] tr1 IH]; cbn [lines_read app]; now rewrite ?IH. Qed.

Lemma printed_app tr1 tr2 : printed (tr1 ++ tr2) = (printed tr1 ++ printed tr2)%list.
Proof. induction tr1 as [| [] tr1 IH]; cbn [printed app]; now rewrite ?IH. Qed.

Lemma invoked_effects tr : invoked (map Effect tr) = [].
Proof. induction tr; cbn [map invoked]; auto. Qed.

Lemma lines_read_effects tr : lines_read (map Effect tr) = [].
Proof. induction tr; cbn [map lines_read]; auto. Qed.

(** The loop goes through answered lines one by one, and what comes after
    them decides how it ends. *)
Lemma loop_answered invoke w before :
  answered invoke w before ->
  exists tr,
    invoked tr = before /\ lines_read tr = before /\
    forall rest,
      GroqMain.loop invoke (before ++ rest) w
      = let (tr', r) := GroqMain.loop invoke rest w in ((tr ++ tr')%list, r).
Proof.
  induction before as [| l before IH]; intros Ha.
  - exists []. repeat split. intros rest. cbn [app].
    now destruct (GroqMain.loop invoke rest w).
  - destruct (Ha l (or_introl eq_refl)) as (Hs & tr1 & out & Hi).
    destruct IH as (tr & Hinv & Hread & Hloop).
    { intros l' Hl'. apply Ha. now right. }
    exists ((Asked GroqMain.prompt l :: Invoked l :: map Effect tr1)
              ++ [Printed (nl ++ "AI Response:"); Printed out; PrintedElapsed] ++ tr)%list.
    split; [| split].
    + cbn [app invoked]. rewrite invoked_app, invoked_effects. cbn [app invoked].
      now rewrite Hinv.
    + cbn [app lines_read]. rewrite lines_read_app, lines_read_effects. cbn [app lines_read].
      now rewrite Hread.
    + intros rest. cbn [app GroqMain.loop]. rewrite Hs, Hi, Hloop.
      destruct (GroqMain.loop invoke rest w) as [tr' r].
      now rewrite <- !app_assoc.
Qed.

(** X16.  The session ends at the first line that is a sentinel: the
    lines before it have gone to the agent, each once and in order, an
    empty line like any other; the sentinel itself has not; [Goodbye!] is
    the last thing printed; and whatever follows in the input is not
    read. *)
Theorem chat_ends_at_sentinel (invoke : string -> Py string) (w : env)
    (before : list string) (q : string) (after : list string) :
  answered invoke w before ->
  GroqMain.is_sentinel q = true ->
  let session := GroqMain.main invoke (before ++ q :: after) w in
  session = GroqMain.main invoke (before ++ [q]) w /\
  snd session = Return tt /\
  invoked (fst session) = before /\
  lines_read (fst session) = (before ++ [q])%list /\
  List.last (printed (fst session)) "" = "Goodbye!".
Proof.
  intros Ha Hq. cbn zeta. unfold GroqMain.main.
  destruct (loop_answered invoke w before Ha) as (tr & Hinv & Hread & Hloop).
  rewrite !Hloop. cbn [GroqMain.loop]. rewrite Hq. cbn [fst snd].
  repeat split.
  - cbn [invoked]. rewrite invoked_app, Hinv. cbn [invoked]. apply app_nil_r.
  - cbn [lines_read]. rewrite lines_read_app, Hread. reflexivity.
  - cbn [printed]. rewrite printed_app. cbn [printed].
    rewrite app_comm_cons. apply List.last_last.
Qed.

Lemma chat_ends_at_sentinel_witness :
  invoked (fst (GroqMain.main sample_agent ["top 3 by volume?"; ""; "Quit"; "more"] example_env))
  = ["top 3 by volume?"; ""].
Proof.
  destruct (chat_ends_at_sentinel sample_agent example_env ["top 3 by volume?"; ""] "Quit"
              ["more"]) as (_ & _ & H & _).
  - intros l [<- | [<- | []]]; (split; [reflexivity | do 2 eexists; reflexivity]).
  - reflexivity.
  - exact H.
Defined.

(** X17.  When the input ends and no line was a sentinel, the session ends
    in the [EOFError] of [input], after every line has gone to the
    agent. *)
Theorem chat_without_sentinel_ends_in_eof (invoke : string -> Py string) (w : env)
    (stdin : list string) :
  answered invoke w stdin ->
  let session := GroqMain.main invoke stdin w in
  snd session = Raise GroqMain.EOFError /\
  invoked (fst session) = stdin /\
  lines_read (fst session) = stdin.
Proof.
  intros Ha. cbn zeta. unfold GroqMain.main.
  destruct (loop_answered invoke w stdin Ha) as (tr & Hinv & Hread & Hloop).
  specialize (Hloop []). rewrite app_nil_r in Hloop. rewrite Hloop.
  cbn [GroqMain.loop fst snd]. repeat split.
  - cbn [invoked]. rewrite invoked_app, Hinv. apply app_nil_r.
  - cbn [lines_read]. rewrite lines_read_app, Hread. apply app_nil_r.
Qed.

Lemma chat_without_sentinel_ends_in_eof_witness :
  snd (GroqMain.main sample_agent ["top 3 by volume?"; "exit "] example_env)
  = Raise GroqMain.EOFError.
Proof.
  destruct (chat_without_sentinel_ends_in_eof sample_agent example_env
              ["top 3 by volume?"; "exit "]) as (H & _).
  - intros l [<- | [<- | []]]; (split; [reflexivity | do 2 eexists; reflexivity]).
  - exact H.
Defined.

(** X18.  An exception of the agent ends the session with that exception:
    nothing is printed for the query, no further line is read, and the
    lines that follow are never looked at. *)
Theorem chat_ends_at_agent_failure (invoke : string -> Py string) (w : env)
    (before : list string) (q : string) (after : list string) (tr : list event) (e : exn) :
  answered invoke w before ->
  GroqMain.is_sentinel q = false ->
  invoke q w = (tr, Raise e) ->
  let session := GroqMain.main invoke (before ++ q :: after) w in
  session = GroqMain.main invoke (before ++ [q]) w /\
  snd session = Raise e /\
  invoked (fst session) = (before ++ [q])%list /\
  lines_read (fst session) = (before ++ [q])%list.
Proof.
  intros Ha Hq Hi. cbn zeta. unfold GroqMain.main.
  destruct (loop_answered invoke w before Ha) as (tr0 & Hinv & Hread & Hloop).
  rewrite !Hloop. cbn [GroqMain.loop]. rewrite Hq, Hi. cbn [fst snd].
  repeat split.
  - cbn [invoked]. rewrite invoked_app, Hinv. cbn [invoked]. now rewrite invoked_effects.
  - cbn [lines_read]. rewrite lines_read_app, Hread. cbn [lines_read].
    now rewrite lines_read_effects.
Qed.

Lemma chat_ends_at_agent_failure_witness :
  snd (GroqMain.main sample_agent ["top 3 by volume?"; "boom"; "exit"] example_env)
  = Raise (mk_exn ValueError "boom").
Proof.
  destruct (chat_ends_at_agent_failure sample_agent example_env ["top 3 by volume?"] "boom"
              ["exit"] [] (mk_exn ValueError "boom")) as (_ & H & _).
  - intros l [<- | []]; (split; [reflexivity | do 2 eexists; reflexivity]).
  - reflexivity.
  - reflexivity.
  - exact H.
Defined.

(** A character is what [str.lower] makes of it, or the capital of that. *)
Lemma lower_char_preimage c : c = lower_char c \/ c = upper_ascii (lower_char c).
Proof.
  destruct c as [[] [] [] [] [] [] [] []];
    first [left; reflexivity | right; reflexivity].
Qed.

Lemma lower_to l c : lower_char c = l -> c = l \/ c = upper_ascii l.
Proof. intros <-. apply lower_char_preimage. Qed.

(** X19.  The lines that end the session are [exit] and [quit] in any
    mix of small and capital letters, 32 spellings in all, and nothing
    else: no blank before or after, no other word. *)
Theorem sentinel_spellings (q : string) :
  GroqMain.is_sentinel q = true
  <-> In q (spellings upper_ascii "exit" ++ spellings upper_ascii "quit").
Proof.
  split.
  - unfold GroqMain.is_sentinel, py_in. cbn [existsb]. rewrite !orb_true_iff.
    intros [H | [H | H]]; [| | discriminate H]; apply String.eqb_eq in H;
      destruct q as [| a [| b [| c [| d [| ? ?]]]]]; try discriminate H;
      cbn [lower] in H; injection H as Ha Hb Hc Hd.
    + apply lower_to in Ha. apply lower_to in Hb.
      apply lower_to in Hc. apply lower_to in Hd.
      destruct Ha as [-> | ->], Hb as [-> | ->], Hc as [-> | ->], Hd as [-> | ->];
        vm_compute; tauto.
    + apply lower_to in Ha. apply lower_to in Hb.
      apply lower_to in Hc. apply lower_to in Hd.
      destruct Ha as [-> | ->], Hb as [-> | ->], Hc as [-> | ->], Hd as [-> | ->];
        vm_compute; tauto.
  - intros H. vm_compute in H.
    repeat (destruct H as [<- | H]; [reflexivity |]). destruct H.
Qed.

Lemma sentinel_spellings_witness :
  GroqMain.is_sentinel "ExIt" = true /\ ~ In "exit " (spellings upper_ascii "exit" ++ spellings upper_ascii "quit").
Proof.
  split.
  - apply (proj2 (sentinel_spellings "ExIt")). vm_compute. tauto.
  - intros H. apply (proj2 (sentinel_spellings "exit ")) in H. discriminate H.
Defined.

(** * The batch loop of [llama_base.py] *)

Lemma rstrip_space_empty s : rstrip_space s = "" <-> all_space s = true.
Proof.
  induction s as [| c s IH]; cbn [rstrip_space all_space]; [tauto |].
  destruct (rstrip_space s) as [| x r].
  - destruct (is_space c); cbn [andb]; [tauto | split; [discriminate | ]].
    intros H; discriminate H.
  - split; [discriminate |]. intros H. apply andb_prop in H as [_ H].
    apply IH in H. discriminate H.
Qed.

Lemma all_space_lstrip s : all_space (lstrip_space s) = all_space s.
Proof.
  induction s as [| c s IH]; cbn [lstrip_space all_space]; [reflexivity |].
  destruct (is_space c) eqn:E; cbn [andb all_space]; [exact IH | now rewrite E].
Qed.

(** [not query.strip()]: the query is nothing but blanks. *)
Lemma strip_empty s : strip s = "" <-> all_space s = true.
Proof. unfold strip. now rewrite rstrip_space_empty, all_space_lstrip. Qed.

Section LlamaLoop.

Variable run : string -> Py string.
Variable other : exn -> bool.
Variable w : env.

Lemma step_blank q :
  all_space q = true ->
  LlamaMain.step run other q w = ([Effect (EvLog WARNING "Skipping empty query.")], Return tt).
Proof.
  intros H. apply strip_empty in H. unfold LlamaMain.step. now rewrite H.
Qed.

Lemma step_run q :
  all_space q = false ->
  LlamaMain.step run other q w
  = match run q w with
    | (tr, Return result) =>
        ((Invoked q :: map Effect tr
            ++ [Printed ("Answer: " ++ nl ++ " " ++ result ++ " " ++ nl ++ nl ++ "======"
                         ++ nl ++ nl)])%list,
         Return tt)
    | (tr, Raise e) =>
        if LlamaMain.is_Exception other e then
          ((Invoked q :: map Effect tr
              ++ [Effect (EvLog ERROR ("Error processing query '" ++ q ++ "': "
                                       ++ exn_str e))])%list,
           Return tt)
        else ((Invoked q :: map Effect tr)%list, Raise e)
    end.
Proof.
  intros H. unfold LlamaMain.step.
  destruct (strip q) eqn:E; [| reflexivity].
  apply strip_empty in E. congruence.
Qed.

(** A step that does not end the batch: what it hands to the agent. *)
Lemma step_survives q :
  survivable run other w [q] ->
  exists tr,
    LlamaMain.step run other q w = (tr, Return tt) /\
    invoked tr = if all_space q then [] else [q].
Proof.
  intros Hs. destruct (all_space q) eqn:E.
  - rewrite (step_blank q E). eexists. split; reflexivity.
  - rewrite (step_run q E). destruct (run q w) as [tr [result | e]] eqn:Hr.
    + eexists. split; [reflexivity |].
      cbn [invoked]. now rewrite invoked_app, invoked_effects.
    + rewrite (Hs q tr e (or_introl eq_refl) Hr). eexists. split; [reflexivity |].
      cbn [invoked]. now rewrite invoked_app, invoked_effects.
Qed.

Lemma loop_survivable before :
  survivable run other w before ->
  exists tr,
    invoked tr = List.filter (fun q => negb (all_space q)) before /\
    forall rest,
      LlamaMain.loop run other (before ++ rest) w
      = let (tr', r) := LlamaMain.loop run other rest w in ((tr ++ tr')%list, r).
Proof.
  induction before as [| q before IH]; intros Hs.
  - exists []. split; [reflexivity |]. intros rest. cbn [app].
    now destruct (LlamaMain.loop run other rest w).
  - destruct (step_survives q) as (tr1 & Hstep & Hinv1).
    { intros q' tr e [<- | []] Hr. eapply Hs; [left; reflexivity | eassumption]. }
    destruct IH as (tr & Hinv & Hloop).
    { intros q' tr e Hin Hr. eapply Hs; [right; eassumption | eassumption]. }
    exists (tr1 ++ tr)%list. split.
    + rewrite invoked_app, Hinv1, Hinv. cbn [List.filter].
      now destruct (all_space q).
    + intros rest. cbn [app LlamaMain.loop]. rewrite Hstep, Hloop.
      destruct (LlamaMain.loop run other rest w) as [tr' r].
      now rewrite app_assoc.
Qed.

End LlamaLoop.

(** X20.  As long as the agent fails with [Exception]s only, the batch
    runs to its end whatever fails on the way: every query that is not
    blank goes to the agent, once and in order, and the blank ones do not.
    For the five queries of the script that is all five. *)
Theorem batch_attempts_every_query (run : string -> Py string) (other : exn -> bool)
    (w : env) (qs : list string) :
  survivable run other w qs ->
  let session := LlamaMain.loop run other qs w in
  snd session = Return tt /\
  invoked (fst session) = List.filter (fun q => negb (all_space q)) qs /\
  (qs = LlamaMain.queries -> invoked (fst (LlamaMain.main run other w)) = LlamaMain.queries).
Proof.
  intros Hs. cbn zeta.
  destruct (loop_survivable run other w qs Hs) as (tr & Hinv & Hloop).
  specialize (Hloop []). rewrite app_nil_r in Hloop.
  cbn [LlamaMain.loop] in Hloop.
  split; [| split].
  - now rewrite Hloop.
  - rewrite Hloop. cbn [fst]. now rewrite app_nil_r.
  - intros ->. unfold LlamaMain.main. rewrite Hloop. cbn [fst].
    rewrite app_nil_r, Hinv. reflexivity.
Qed.

Lemma batch_attempts_every_query_witness :
  invoked (fst (LlamaMain.loop sample_agent (fun _ => false)
                  ["top 3 by volume?"; "   "; "boom"; "BBCA trend?"] example_env))
  = ["top 3 by volume?"; "boom"; "BBCA trend?"].
Proof.
  destruct (batch_attempts_every_query sample_agent (fun _ => false) example_env
              ["top 3 by volume?"; "   "; "boom"; "BBCA trend?"]) as (_ & H & _).
  - intros q tr e [<- | [<- | [<- | [<- | []]]]] Hr; try discriminate Hr.
    injection Hr as <- <-. reflexivity.
  - exact H.
Defined.

(** X21.  An exception of the agent that is no [Exception] (a
    [KeyboardInterrupt], say) is not caught: the batch ends with it, and
    the queries after the one that met it are never tried. *)
Theorem batch_ends_at_other_failure (run : string -> Py string) (other : exn -> bool)
    (w : env) (before : list string) (q : string) (after : list string)
    (tr : list event) (e : exn) :
  survivable run other w before ->
  all_space q = false ->
  run q w = (tr, Raise e) ->
  LlamaMain.is_Exception other e = false ->
  let session := LlamaMain.loop run other (before ++ q :: after) w in
  session = LlamaMain.loop run other (before ++ [q]) w /\
  snd session = Raise e /\
  invoked (fst session) = (List.filter (fun q => negb (all_space q)) before ++ [q])%list.
Proof.
  intros Hs Hq Hr He. cbn zeta.
  destruct (loop_survivable run other w before Hs) as (tr0 & Hinv & Hloop).
  rewrite !Hloop. cbn [LlamaMain.loop]. rewrite (step_run run other w q Hq), Hr, He.
  cbn [fst snd]. repeat split.
  rewrite invoked_app, Hinv. cbn [invoked]. now rewrite invoked_effects.
Qed.

Lemma batch_ends_at_other_failure_witness :
  invoked (fst (LlamaMain.loop
                  (fun q => if String.eqb q "stop" then raise (mk_exn OtherException "")
                            else ret "ok")
                  (fun _ => false)
                  ["top 3 by volume?"; "stop"; "BBCA trend?"] example_env))
  = ["top 3 by volume?"; "stop"].
Proof.
  destruct (batch_ends_at_other_failure
              (fun q => if String.eqb q "stop" then raise (mk_exn OtherException "")
                        else ret "ok")
              (fun _ => false) example_env
              ["top 3 by volume?"] "stop" ["BBCA trend?"] [] (mk_exn OtherException ""))
    as (_ & _ & H).
  - intros q tr e [<- | []] Hr. discriminate Hr.
  - reflexivity.
  - reflexivity.
  - reflexivity.
  - exact H.
Defined.
